(** * gulp-awspublish: the publish / cache / sync decision engine

    A shallow embedding of [lib/index.js].  Every stream transform of the
    plugin is a function from the file it receives (and the publisher state
    it closes over) to what it pushes downstream, the error it raises and
    the calls it makes on the S3 client, in the order it makes them.

    Conventions.
    - A JavaScript object used as a record of headers or request
      parameters is an association list in insertion order ([JSObj]):
      [for (h in headers)] walks it in that order.
    - The objects used as dictionaries keyed by remote key ([_cache],
      [newFiles]) are finite maps over their own properties; what they
      inherit from [Object.prototype] is written out where the code
      reads or assigns a property ([JS.inherited], [JS.assign]).
    - [undefined] is [None]; truthiness is written out ([truthy_str],
      [truthy]).
    - The libraries the plugin calls into (crypto, mime-types,
      pascal-case, JSON, the S3 client) are parameters: [Externals] and
      [S3Client]. *)

From Stdlib Require Import ZArith Ascii String List Lia.
From Stdlib Require Import Strings.Byte.
From stdpp Require Import gmap strings list pretty.

Local Open Scope string_scope.
Local Open Scope Z_scope.

(** ** JavaScript values and objects *)

Module JS.

(** A string is truthy unless it is empty; [undefined] is falsy. *)
Definition truthy_str (s : string) : bool := negb (String.eqb s EmptyString).

Definition backslash : ascii := ascii_of_nat 92.
Definition quote : string := String (ascii_of_nat 34) EmptyString.

Definition truthy_ostr (o : option string) : bool :=
  match o with
  | Some s => truthy_str s
  | None => false
  end.

(** [a || b] on strings that may be [undefined]. *)
Definition or_else (o : option string) (d : string) : string :=
  match o with
  | Some s => if truthy_str s then s else d
  | None => d
  end.

(** The values stored in headers and request parameters. *)
Inductive Val :=
| VStr (s : string)
| VNum (n : Z)
| VBuf (b : list byte).

Definition truthy (o : option Val) : bool :=
  match o with
  | Some (VStr s) => truthy_str s
  | Some (VNum n) => negb (n =? 0)
  | Some (VBuf _) => true
  | None => false
  end.

(** An object literal as an insertion-ordered association list. *)
Definition Obj := list (string * Val).

Fixpoint get (o : Obj) (k : string) : option Val :=
  match o with
  | [] => None
  | (k', v) :: o' => if String.eqb k' k then Some v else get o' k
  end.

(** [o[k] = v]: overwrite in place, or append a new property. *)
Fixpoint set (o : Obj) (k : string) (v : Val) : Obj :=
  match o with
  | [] => [(k, v)]
  | (k', v') :: o' =>
      if String.eqb k' k then (k', v) :: o' else (k', v') :: set o' k v
  end.

(** [s.replace(/\\/g, '/')] *)
Fixpoint slashes (s : string) : string :=
  match s with
  | EmptyString => EmptyString
  | String c r =>
      String (if Ascii.eqb c backslash then "/"%char else c) (slashes r)
  end.

(** [s.endsWith(suffix)] *)
Definition endsWith (s suffix : string) : bool :=
  let n := String.length s in
  let m := String.length suffix in
  (m <=? n)%nat && String.eqb (String.substring (n - m) m s) suffix.

(** [s.substr(0, n)] *)
Definition substr0 (s : string) (n : nat) : string := String.substring 0 n s.

(** The property names every object inherits from [Object.prototype];
    what it holds under each of them is truthy and is no string. *)
Definition inherited (k : string) : bool :=
  bool_decide
    (k ∈ ["constructor"; "__defineGetter__"; "__defineSetter__";
          "hasOwnProperty"; "__lookupGetter__"; "__lookupSetter__";
          "isPrototypeOf"; "propertyIsEnumerable"; "toString"; "valueOf";
          "__proto__"; "toLocaleString"]).

(** [o[k] = v] for a string [v], on an object used as a dictionary.  An
    assignment to [__proto__] goes to the inherited setter, which ignores
    a string, unless the object has a property of its own under that name
    (as [JSON.parse] creates it). *)
Definition assign (o : gmap string string) (k v : string)
  : gmap string string :=
  if String.eqb k "__proto__" && negb (bool_decide (is_Some (o !! k)))
  then o
  else <[k := v]> o.

End JS.

(** ** Data model *)

(** The three shapes of [file.contents] that Vinyl allows. *)
Inductive Contents :=
| CNull
| CStream
| CBuffer (buf : list byte).

Inductive JSDate :=
| DateOf (lastModified : option string)   (* new Date(res.LastModified) *)
| DateNow.                                (* new Date() *)

(** [file.s3] *)
Record S3Info := mkS3 {
  s3_path : string;
  s3_headers : JS.Obj;
  s3_state : option string;
  s3_etag : option string;
  s3_date : option JSDate
}.

(** The Vinyl file, with the fields the plugin reads or writes. *)
Record File := mkFile {
  path : string;
  relative : string;
  unzipPath : option string;
  contents : Contents;
  s3 : option S3Info
}.

Definition isNull (f : File) : bool :=
  match contents f with CNull => true | _ => false end.
Definition isStream (f : File) : bool :=
  match contents f with CStream => true | _ => false end.
Definition isBuffer (f : File) : bool :=
  match contents f with CBuffer _ => true | _ => false end.

Definition with_s3 (f : File) (i : S3Info) : File :=
  mkFile (path f) (relative f) (unzipPath f) (contents f) (Some i).
Definition with_unzipPath (f : File) (u : string) : File :=
  mkFile (path f) (relative f) (Some u) (contents f) (s3 f).

Definition set_headers (i : S3Info) (h : JS.Obj) : S3Info :=
  mkS3 (s3_path i) h (s3_state i) (s3_etag i) (s3_date i).
Definition set_state (i : S3Info) (st : string) : S3Info :=
  mkS3 (s3_path i) (s3_headers i) (Some st) (s3_etag i) (s3_date i).
Definition set_etag (i : S3Info) (e : string) : S3Info :=
  mkS3 (s3_path i) (s3_headers i) (s3_state i) (Some e) (s3_date i).
Definition set_date (i : S3Info) (d : JSDate) : S3Info :=
  mkS3 (s3_path i) (s3_headers i) (s3_state i) (s3_etag i) (Some d).

Definition state_is (i : S3Info) (st : string) : bool :=
  match s3_state i with
  | Some s => String.eqb s st
  | None => false
  end.

(** Options of [publish]. *)
Record Options := mkOptions {
  force : bool;
  noAcl : bool;
  simulate : bool;
  createOnly : bool;
  compress : option (list (string * string))
}.

(** ** The S3 client *)

Record AwsError := mkAwsError {
  statusCode : option Z;
  message : string
}.

(** The fields of a [headObject] response the plugin looks at. *)
Record HeadData := mkHead {
  ETag : option string;
  LastModified : option string
}.

Record ObjectIdentifier := mkKey { Key : string }.
Record DeleteSpec := mkDeleteSpec { Objects : list ObjectIdentifier }.
Record DeleteRequest := mkDeleteRequest { Delete : DeleteSpec }.

(** The client answers each request with either an error or data, never
    both: [inl err] is [callback(err, null)], [inr data] is
    [callback(null, data)]; for calls without data, [Some err] or [None]. *)
Record S3Client := mkClient {
  headObject : string -> AwsError + HeadData;
  putObject : JS.Obj -> option AwsError;
  listObjects : string -> list string;
  deleteObjects : option DeleteRequest -> option AwsError
}.

Inductive Call :=
| HeadObject (key : string)
| PutObject (params : JS.Obj)
| ListObjects (prefix : string)
| DeleteObjects (req : option DeleteRequest).

Definition is_put (c : Call) : bool :=
  match c with PutObject _ => true | _ => false end.
Definition is_delete (c : Call) : bool :=
  match c with DeleteObjects _ => true | _ => false end.

(** What [JSON.parse] returns, as far as the plugin tells values apart:
    an object all of whose values are strings, [null], or anything else
    (a number, a string, a boolean, an array, an object holding a value
    that is no string). *)
Inductive JSON :=
| JMapping (c : gmap string string)
| JNull
| JOther.

(** The libraries behind [md5Hash], [getContentType] and [toAwsParams],
    and the JSON codec of the cache file. *)
Record Externals := mkExternals {
  md5_hex : list byte -> string;            (* crypto md5, hex digest *)
  mime_lookup : string -> option string;    (* mime.lookup, false = None *)
  mime_charset : string -> option string;   (* mime.charset, false = None *)
  toLowerCase : string -> string;
  pascalCase : string -> string;
  JSON_stringify : gmap string string -> string;
  JSON_parse : string -> option JSON         (* None: it throws *)
}.

(** ** What a transform does with one file *)

Inductive Error :=
| UnsupportedStream            (* PluginError: Stream content is not supported *)
| AwsFailure (e : AwsError).

(** [out_file]: the file pushed downstream, if any; [out_error]: the error
    raised on the stream; [out_calls]: the client calls, oldest first. *)
Record Outcome := mkOutcome {
  out_file : option File;
  out_error : option Error;
  out_calls : list Call
}.

(** The stream callback [cb(err, data)]: with an error the stream raises
    it and pushes nothing; without one it pushes [data] when there is
    some. *)
Definition cb (err : option Error) (data : option File) (calls : list Call)
  : Outcome :=
  match err with
  | Some e => mkOutcome None (Some e) calls
  | None => mkOutcome data None calls
  end.

(** A computation that may throw. *)
Inductive Res (A : Type) :=
| Ret (a : A)
| Throw (msg : string).
Arguments Ret {A} a.
Arguments Throw {A} msg.

(** ** Helpers of [lib/index.js] *)

Section Engine.

Context (X : Externals).

Definition md5Hash (buf : list byte) : string := md5_hex X buf.

Definition getContentType (file : File) : string :=
  let mimeType :=
    JS.or_else (mime_lookup X (JS.or_else (unzipPath file) (path file)))
               "application/octet-stream" in
  let charset := mime_charset X mimeType in
  if JS.truthy_ostr charset
  then mimeType +:+ "; charset=" +:+ toLowerCase X (JS.or_else charset EmptyString)
  else mimeType.

(** [toAwsParams(file)], for a file whose [s3] record is [i]; [publish]
    calls it on buffer files only. *)
Definition toAwsParams (file : File) (i : S3Info) : JS.Obj :=
  let params :=
    fold_left
      (fun params hv =>
         let '(header, v) := hv in
         if String.eqb header "x-amz-acl" then JS.set params "ACL" v
         else if String.eqb header "Content-MD5"
              then JS.set params "ContentMD5" v
              else JS.set params (pascalCase X header) v)
      (s3_headers i) [] in
  let params := JS.set params "Key" (JS.VStr (s3_path i)) in
  match contents file with
  | CBuffer buf => JS.set params "Body" (JS.VBuf buf)
  | _ => params
  end.

(** [file.s3] once [initFile] has run. *)
Definition s3_of (file : File) : S3Info :=
  match s3 file with
  | Some i => i
  | None => mkS3 (JS.slashes (relative file)) [] None None None
  end.

Definition initFile (file : File) : File := with_s3 file (s3_of file).

(** A RegExp object: whether it carries the [g] or the [y] flag, its
    matcher, and its [lastIndex].  [search s i] runs the matcher on [s]
    from index [i] (for a sticky pattern at [i] only) and gives the index
    at which the match it finds ends. *)
Record RegExp := mkRegExp {
  flagged : bool;
  search : string -> nat -> option nat;
  lastIndex : nat
}.

(** [expr.test(s)], with the object as the call leaves it.  Without the
    flags the search starts at 0 and [lastIndex] stays; with one of them
    it starts at [lastIndex], which moves to the end of the match, or
    back to 0 when there is none. *)
Definition regexp_test (expr : RegExp) (s : string) : bool * RegExp :=
  if flagged expr then
    match (if (lastIndex expr <=? String.length s)%nat
           then search expr s (lastIndex expr) else None) with
    | Some e => (true, mkRegExp true (search expr) e)
    | None => (false, mkRegExp true (search expr) 0)
    end
  else
    (match search expr s 0 with Some _ => true | None => false end, expr).

(** A whitelist entry; the entries of a whitelist are distinct objects. *)
Inductive WhitelistEntry :=
| WRegExp (expr : RegExp)
| WString (s : string)
| WOther.                      (* neither a RegExp nor a string *)

(** [fileShouldBeDeleted(key, whitelist)]: the answer, and the whitelist
    with its RegExp objects as the tests leave them. *)
Fixpoint fileShouldBeDeleted (key : string) (whitelist : list WhitelistEntry)
  : Res (bool * list WhitelistEntry) :=
  match whitelist with
  | [] => Ret (true, [])
  | WRegExp expr :: rest =>
      let '(found, expr') := regexp_test expr key in
      if found then Ret (false, WRegExp expr' :: rest)
      else
        match fileShouldBeDeleted key rest with
        | Ret (answer, rest') => Ret (answer, WRegExp expr' :: rest')
        | Throw msg => Throw msg
        end
  | WString s :: rest =>
      if String.eqb s key then Ret (false, whitelist)
      else
        match fileShouldBeDeleted key rest with
        | Ret (answer, rest') => Ret (answer, WString s :: rest')
        | Throw msg => Throw msg
        end
  | WOther :: _ =>
      Throw "whitelist param can only contain regular expressions or strings"
  end.

Definition buildDeleteMultiple (keys : option (list string))
  : option DeleteRequest :=
  match keys with
  | None => None
  | Some [] => None
  | Some ks => Some (mkDeleteRequest (mkDeleteSpec (map mkKey ks)))
  end.

(** ** Publisher *)

Record Publisher := mkPublisher {
  _cacheFile : string;
  _cache : gmap string string
}.

Definition getCacheFilename (p : Publisher) : string := _cacheFile p.

(** The object the constructor leaves: [_cacheFile], and as [_cache]
    whatever was loaded. *)
Record PublisherObject := mkObject {
  cacheFile_of : string;
  cache_of : JSON
}.

(** The streams are those of a publisher whose [_cache] is a mapping
    from keys to fingerprints. *)
Definition as_publisher (o : PublisherObject) : option Publisher :=
  match cache_of o with
  | JMapping c => Some (mkPublisher (cacheFile_of o) c)
  | _ => None
  end.

(** The [try { JSON.parse(fs.readFileSync(name, 'utf8')) } catch { {} }]
    of the constructor, where [fs] holds the files [readFileSync] can
    read: it throws on a name that [fs] does not hold, [JSON.parse] on
    content it rejects.  Whatever [JSON.parse] returns is kept. *)
Definition loadCache (fs : gmap string string) (name : string) : JSON :=
  match fs !! name with
  | None => JMapping ∅
  | Some content =>
      match JSON_parse X content with
      | None => JMapping ∅
      | Some v => v
      end
  end.

(** [new Publisher(AWSConfig, cacheOptions)], given
    [AWSConfig.params.Bucket] and [cacheOptions.cacheFileName]. *)
Definition newPublisher (fs : gmap string string)
    (bucket : option string) (cacheFileName : option string)
  : Res PublisherObject :=
  if negb (JS.truthy_ostr bucket)
  then Throw "Missing `params.Bucket` config value."
  else
    let name :=
      JS.or_else cacheFileName (".awspublish-" +:+ JS.or_else bucket EmptyString) in
    Ret (mkObject name (loadCache fs name)).

(** ** The cache stream *)

(** The state [cache()] closes over: the publisher's cache object, the
    counter, and the [writeFileSync] calls made so far (oldest first,
    each with the file name and the content written). *)
Record CacheState := mkCacheState {
  cs_pub : Publisher;
  counter : nat;
  cs_writes : list (string * string)
}.

Definition saveCache (st : CacheState) : CacheState :=
  mkCacheState (cs_pub st) (counter st)
    (cs_writes st ++
       [(getCacheFilename (cs_pub st), JSON_stringify X (_cache (cs_pub st)))]).

Definition set_cache (st : CacheState) (c : gmap string string) : CacheState :=
  mkCacheState (mkPublisher (_cacheFile (cs_pub st)) c) (counter st)
               (cs_writes st).

Definition incr_counter (st : CacheState) : CacheState :=
  mkCacheState (cs_pub st) (S (counter st)) (cs_writes st).

(** The transform of [cache()]: the new state; the file is always
    pushed downstream as it came. *)
Definition cache_transform (st : CacheState) (file : File) : CacheState :=
  match s3 file with
  | Some i =>
      if JS.truthy_str (s3_path i) then
        if state_is i "cache" then st
        else
          let c := _cache (cs_pub st) in
          let st1 :=
            if state_is i "delete" then set_cache st (delete (s3_path i) c)
            else match s3_etag i with
                 | Some e =>
                     if JS.truthy_str e
                     then set_cache st (JS.assign c (s3_path i) e)
                     else st
                 | None => st
                 end in
          let st2 := incr_counter st1 in
          if negb (Nat.eqb (counter st2 mod 10) 0) then saveCache st2
          else st2
      else st
  | None => st
  end.

(** A whole run of the cache stream: every file in turn, then the
    [finish] handler. *)
Definition cache_stream (st : CacheState) (files : list File) : CacheState :=
  fold_left cache_transform files st.

Definition cache_run (st : CacheState) (files : list File) : CacheState :=
  saveCache (cache_stream st files).

Definition cache_start (p : Publisher) : CacheState := mkCacheState p 0 [].

(** ** The publish stream *)

(** The defaults [publish(headers, options)] fills in before it builds
    the stream. *)
Definition publish_args (headers : option JS.Obj) (options : option Options)
  : JS.Obj * Options :=
  let options :=
    match options with
    | Some o => o
    | None => mkOptions false false false false None
    end in
  let headers := match headers with Some h => h | None => [] end in
  let headers :=
    if negb (JS.truthy (JS.get headers "x-amz-acl")) && negb (noAcl options)
    then JS.set headers "x-amz-acl" (JS.VStr "public-read")
    else headers in
  (headers, options).

(** One round of the [Object.keys(options.compress).forEach] loop. *)
Definition compress_key (fi : File * S3Info) (kv : string * string)
  : File * S3Info :=
  let '(file, i) := fi in
  let '(key, encoding) := kv in
  if negb (JS.truthy_ostr (unzipPath file)) && JS.endsWith (path file) key
  then
    let file' :=
      with_unzipPath file
        (JS.substr0 (path file)
           (String.length (path file) - String.length key)) in
    if negb (JS.truthy (JS.get (s3_headers i) "Content-Encoding"))
    then (file',
          set_headers i
            (JS.set (s3_headers i) "Content-Encoding" (JS.VStr encoding)))
    else (file', i)
  else fi.

(** Lines 337 to 355: content type and encoding, content length, then
    the headers given to [publish]. *)
Definition add_headers (headers : JS.Obj) (options : Options)
    (buf : list byte) (fi : File * S3Info) : File * S3Info :=
  let '(file, i) :=
    if negb (JS.truthy (JS.get (s3_headers (snd fi)) "Content-Type")) then
      let '(file, i) :=
        match compress options with
        | Some c => fold_left compress_key c fi
        | None => fi
        end in
      (file,
       set_headers i
         (JS.set (s3_headers i) "Content-Type"
            (JS.VStr (getContentType file))))
    else fi in
  let i :=
    if negb (JS.truthy (JS.get (s3_headers i) "Content-Length"))
    then set_headers i
           (JS.set (s3_headers i) "Content-Length"
              (JS.VNum (Z.of_nat (length buf))))
    else i in
  let i :=
    set_headers i
      (fold_left (fun h hv => JS.set h (fst hv) (snd hv)) headers
         (s3_headers i)) in
  (file, i).

(** [[403, 404].indexOf(err.statusCode) < 0] *)
Definition not_benign (err : AwsError) : bool :=
  match statusCode err with
  | Some c => negb ((c =? 403) || (c =? 404))
  | None => true
  end.

(** Lines 364 to 389 of the callback given to [headObject]: skip, or
    write as an update or a creation. *)
Definition head_decide (options : Options) (client : S3Client)
    (etag : string) (file : File) (i : S3Info)
    (err : option AwsError) (res : option HeadData) : Outcome :=
  let head := HeadObject (s3_path i) in
  let res := match res with Some r => r | None => mkHead None None end in
  let noUpdate := createOnly options && JS.truthy_ostr (ETag res) in
  let noChange :=
    negb (force options) && bool_decide (ETag res = Some etag) in
  if noUpdate || noChange then
    let i := set_date (set_etag (set_state i "skip") etag)
                      (DateOf (LastModified res)) in
    cb (AwsFailure <$> err) (Some (with_s3 file i)) [head]
  else
    let i :=
      set_state i (if JS.truthy_ostr (ETag res) then "update"
                   else "create") in
    let params := toAwsParams file i in
    match putObject client params with
    | Some e => cb (Some (AwsFailure e)) None [head; PutObject params]
    | None =>
        let i := set_etag (set_date i DateNow) etag in
        cb None (Some (with_s3 file i)) [head; PutObject params]
    end.

(** The callback given to [headObject] (lines 360 to 390), called with
    [err] and [res]: an error other than 403 and 404 ends the file. *)
Definition headObject_cb (options : Options) (client : S3Client)
    (etag : string) (file : File) (i : S3Info)
    (err : option AwsError) (res : option HeadData) : Outcome :=
  match err with
  | Some e =>
      if not_benign e
      then cb (Some (AwsFailure e)) None [HeadObject (s3_path i)]
      else head_decide options client etag file i err res
  | None => head_decide options client etag file i err res
  end.

(** The transform of [publish(headers, options)], for the publisher
    whose cache is [cache]; [headers] and [options] are those of
    [publish_args]. *)
Definition publish_transform (cache : gmap string string)
    (headers : JS.Obj) (options : Options) (client : S3Client)
    (file : File) : Outcome :=
  match contents file with
  | CNull => cb None None []
  | CStream => mkOutcome None (Some UnsupportedStream) []
  | CBuffer buf =>
      let i := s3_of file in
      let etag := JS.quote +:+ md5Hash buf +:+ JS.quote in
      if state_is i "delete" then cb None (Some (with_s3 file i)) []
      else if negb (force options)
              && bool_decide (cache !! s3_path i = Some etag)
      then cb None (Some (with_s3 file (set_state i "cache"))) []
      else
        let '(file, i) := add_headers headers options buf (file, i) in
        if simulate options then cb None (Some (with_s3 file i)) []
        else
          match headObject client (s3_path i) with
          | inl err => headObject_cb options client etag file i (Some err) None
          | inr res => headObject_cb options client etag file i None (Some res)
          end
  end.

Definition publish (p : Publisher) (headers : option JS.Obj)
    (options : option Options) (client : S3Client) (file : File) : Outcome :=
  let '(headers, options) := publish_args headers options in
  publish_transform (_cache p) headers options client file.

(** ** The sync stream *)

(** [_transform]: note the key as published and push the file on.  A
    file that never went through [publish] has no [s3]: reading
    [file.s3.path] throws.  ([newFiles] holds the keys assigned; what
    [newFiles[key]] reads for an inherited name is in [lister_data].) *)
Definition sync_transform (newFiles : gset string) (file : File)
  : Res (gset string) :=
  match s3 file with
  | Some i => Ret ({[s3_path i]} ∪ newFiles)
  | None => Throw "TypeError: file.s3 is undefined"
  end.

(** [new Vinyl({})] with the [s3] record of a deletion. *)
Definition deleteFile (key : string) : File :=
  mkFile EmptyString EmptyString None CNull
         (Some (mkS3 key [] (Some "delete") None None)).

(** The [data] handler of the lister, over the keys it is given in
    turn; [toDelete] grows by [push].  [newFiles[key]] is truthy for a
    key assigned by [_transform] and for every inherited property name;
    the RegExp objects of the whitelist go from one key to the next as
    the tests leave them. *)
Fixpoint lister_data (newFiles : gset string)
    (whitelistedFiles : list WhitelistEntry) (keys : list string)
    (toDelete : list string) : Res (list string) :=
  match keys with
  | [] => Ret toDelete
  | key :: rest =>
      if bool_decide (key ∈ newFiles) || JS.inherited key
      then lister_data newFiles whitelistedFiles rest toDelete
      else
        match fileShouldBeDeleted key whitelistedFiles with
        | Throw msg => Throw msg
        | Ret (false, whitelistedFiles') =>
            lister_data newFiles whitelistedFiles' rest toDelete
        | Ret (true, whitelistedFiles') =>
            lister_data newFiles whitelistedFiles' rest (toDelete ++ [key])
        end
  end.

(** The [end] handler: the delete call, if any, and what [cb] gets. *)
Definition lister_end (client : S3Client) (toDelete : list string)
  : list Call * option AwsError :=
  match toDelete with
  | [] => ([], None)
  | _ =>
      let req := buildDeleteMultiple (Some toDelete) in
      ([DeleteObjects req], deleteObjects client req)
  end.

(** What [_flush] leaves behind: the keys collected in [toDelete] (one
    [deleteFile] is pushed downstream for each), the client calls, and
    the error handed to [cb]. *)
Record FlushOutcome := mkFlush {
  fl_toDelete : list string;
  fl_calls : list Call;
  fl_error : option AwsError
}.

Definition fl_pushed (o : FlushOutcome) : list File :=
  map deleteFile (fl_toDelete o).

(** [_flush], for [sync(prefix, whitelistedFiles)]; a whitelist entry
    that is neither a RegExp nor a string throws out of the handler. *)
Definition sync_flush (client : S3Client) (newFiles : gset string)
    (prefix : option string) (whitelistedFiles : option (list WhitelistEntry))
  : Res FlushOutcome :=
  let prefix := JS.or_else prefix EmptyString in
  let whitelistedFiles :=
    match whitelistedFiles with Some w => w | None => [] end in
  match lister_data newFiles whitelistedFiles (listObjects client prefix) []
  with
  | Throw msg => Throw msg
  | Ret toDelete =>
      let '(calls, err) := lister_end client toDelete in
      Ret (mkFlush toDelete (ListObjects prefix :: calls) err)
  end.

(** The keys noted by [_transform] over the files of a run. *)
Fixpoint sync_files (newFiles : gset string) (files : list File)
  : Res (gset string) :=
  match files with
  | [] => Ret newFiles
  | file :: rest =>
      match sync_transform newFiles file with
      | Throw msg => Throw msg
      | Ret newFiles' => sync_files newFiles' rest
      end
  end.

Definition sync (client : S3Client) (prefix : option string)
    (whitelistedFiles : option (list WhitelistEntry)) (files : list File)
  : Res FlushOutcome :=
  match sync_files ∅ files with
  | Throw msg => Throw msg
  | Ret newFiles => sync_flush client newFiles prefix whitelistedFiles
  end.

End Engine.

(** ** Notions the statements below use *)

(** The fingerprint [publish] computes for a buffer: the quoted digest. *)
Definition fingerprint (X : Externals) (buf : list byte) : string :=
  JS.quote +:+ md5Hash X buf +:+ JS.quote.

(** The remote key of a file: [file.s3.path] after [initFile]. *)
Definition key_of (file : File) : string := s3_path (s3_of file).

(** The file [publish] emits on a cache hit: marked, nothing else touched. *)
Definition cache_hit (file : File) : Outcome :=
  mkOutcome (Some (with_s3 file (set_state (s3_of file) "cache"))) None [].

(** The state of the file an outcome carries, if it carries one. *)
Definition out_state (o : Outcome) : option string :=
  match out_file o with
  | Some f => match s3 f with Some i => s3_state i | None => None end
  | None => None
  end.

(** A key is protected by a whitelist when it equals one of its strings
    or one of its patterns matches it. *)
Definition entry_matches (key : string) (e : WhitelistEntry) : bool :=
  match e with
  | WRegExp expr => match search expr key 0 with Some _ => true | None => false end
  | WString s => String.eqb s key
  | WOther => false
  end.

Definition whitelisted (key : string) (whitelist : list WhitelistEntry) : bool :=
  existsb (entry_matches key) whitelist.

Definition well_formed (e : WhitelistEntry) : Prop :=
  match e with WOther => False | _ => True end.

(** A pattern without the [g] and the [y] flag. *)
Definition unflagged (e : WhitelistEntry) : Prop :=
  match e with WRegExp expr => flagged expr = false | _ => True end.


(** The keys [_transform] has seen: those of the files of the run. *)
Definition published_keys (files : list File) : gset string :=
  list_to_set (omap (fun f => fmap s3_path (s3 f)) files).

(** The delete set as the specification words it: the listing, minus the
    published keys, minus the whitelisted keys. *)
Definition delete_set (listing : list string) (published : gset string)
    (whitelist : list WhitelistEntry) : list string :=
  filter (λ key, (key ∉ published) ∧ whitelisted key whitelist = false)
         listing.

(** The keys the flush deletes, for a whitelist without flagged
    patterns: the listing, minus the published keys, minus the inherited
    property names, minus the whitelisted keys. *)
Definition reconciled (listing : list string) (published : gset string)
    (whitelist : list WhitelistEntry) : list string :=
  filter (λ key, (key ∉ published) ∧ JS.inherited key = false
                 ∧ whitelisted key whitelist = false)
         listing.

(** Files the cache stream counts: with a remote key, not a cache hit. *)
Definition counted (file : File) : bool :=
  match s3 file with
  | Some i => JS.truthy_str (s3_path i) && negb (state_is i "cache")
  | None => false
  end.

(** The number of objects each delete call of a trace carries. *)
Definition batch_sizes (calls : list Call) : list nat :=
  omap (fun c =>
          match c with
          | DeleteObjects (Some r) => Some (length (Objects (Delete r)))
          | DeleteObjects None => Some 0%nat
          | _ => None
          end) calls.

(** ** Sample data *)

Module Sample.

Definition hi : list byte := [x68; x69].

(** The cache file of a run that published [a.txt] holding "hi":
    one key, and its quoted digest with the quotes escaped. *)
Definition cache_json : string :=
  let q := JS.quote in
  let bs := String JS.backslash EmptyString in
  "{" +:+ q +:+ "a.txt" +:+ q +:+ ":" +:+ q +:+ bs +:+ q
      +:+ "49f68a5c8493ec2c0bf489821c21fc3b" +:+ bs +:+ q +:+ q +:+ "}".

Definition etag_hi : string :=
  JS.quote +:+ "49f68a5c8493ec2c0bf489821c21fc3b" +:+ JS.quote.

(** A cache that knows [a.txt] with the fingerprint of "hi". *)
Definition cache_hi : gmap string string := {[ "a.txt" := etag_hi ]}.

(** Stand-ins for the libraries: the digest agrees with MD5 on [hi] and
    on the empty buffer; the mime table knows [.txt]; the JSON codec
    knows the empty cache, [cache_hi] and [null]. *)
Definition X : Externals :=
  mkExternals
    (fun buf => match buf with
                | [x68; x69] => "49f68a5c8493ec2c0bf489821c21fc3b"
                | _ => "d41d8cd98f00b204e9800998ecf8427e"
                end)
    (fun p => if JS.endsWith p ".txt" then Some "text/plain" else None)
    (fun m => if String.eqb m "text/plain" then Some "UTF-8" else None)
    (fun s => if String.eqb s "UTF-8" then "utf-8" else s)
    (fun s => if String.eqb s "Content-Type" then "ContentType"
              else if String.eqb s "Content-Length" then "ContentLength"
              else s)
    (fun c => if bool_decide (c = cache_hi) then cache_json else "{}")
    (fun s => if String.eqb s "{}" then Some (JMapping ∅)
              else if String.eqb s cache_json then Some (JMapping cache_hi)
                   else if String.eqb s "null" then Some JNull
                        else None).

(** [a.txt] holding "hi", fresh from the file system. *)
Definition a_txt : File := mkFile "/src/a.txt" "a.txt" None (CBuffer hi) None.

(** The same file, marked for deletion upstream. *)
Definition a_txt_deleted : File :=
  mkFile "/src/a.txt" "a.txt" None (CBuffer hi)
         (Some (mkS3 "a.txt" [] (Some "delete") None None)).

(** A file without contents, and one with a stream. *)
Definition a_null : File := mkFile "/src/a.txt" "a.txt" None CNull None.

Definition defaults : Options := mkOptions false false false false None.
Definition create_only : Options := mkOptions false false false true None.

Definition acl : JS.Obj := [("x-amz-acl", JS.VStr "public-read")].

Definition err (code : Z) : AwsError := mkAwsError (Some code) "error".

(** A bucket without objects: every [headObject] is a 404. *)
Definition empty_bucket : S3Client :=
  mkClient (fun _ => inl (err 404)) (fun _ => None) (fun _ => [])
           (fun _ => None).

(** A bucket in which every key holds an object with another
    fingerprint. *)
Definition other_content : S3Client :=
  mkClient (fun _ => inr (mkHead (Some "other") (Some "yesterday")))
           (fun _ => None) (fun _ => []) (fun _ => None).

(** A bucket whose [headObject] fails with a 500. *)
Definition failing : S3Client :=
  mkClient (fun _ => inl (err 500)) (fun _ => None) (fun _ => [])
           (fun _ => None).

(** A bucket listing the given keys. *)
Definition listing (keys : list string) : S3Client :=
  mkClient (fun _ => inl (err 404)) (fun _ => None) (fun _ => keys)
           (fun _ => None).

Definition pub : Publisher := mkPublisher ".awspublish-bucket" ∅.

(** A file as [publish] emits it after a creation. *)
Definition created (key : string) : File :=
  mkFile key key None (CBuffer hi)
         (Some (mkS3 key [] (Some "create") (Some etag_hi) (Some DateNow))).

(** The headers [publish] derives for [a.txt], given [acl]. *)
Definition a_txt_headers : JS.Obj :=
  [("Content-Type", JS.VStr "text/plain; charset=utf-8");
   ("Content-Length", JS.VNum 2);
   ("x-amz-acl", JS.VStr "public-read")].

(** [a.txt] as a first publish to the empty bucket emits it. *)
Definition a_txt_created : File :=
  mkFile "/src/a.txt" "a.txt" None (CBuffer hi)
    (Some (mkS3 "a.txt" a_txt_headers
             (Some "create") (Some etag_hi) (Some DateNow))).

Definition many_keys (n : nat) : list string :=
  (fun k => "k" +:+ pretty k) <$> seq 0 n.

(** The cache stream of a fresh run over [n] created files. *)
Definition stream_of (X : Externals) (p : Publisher) (n : nat) : CacheState :=
  cache_stream X (cache_start p) (created <$> many_keys n).

End Sample.

(** ** The gzip stream *)

(** [zlib.gzip(contents, options, callback)], for the options the stream
    was built with: [inr buf] is [callback(null, buf)], [inl msg] is
    [callback(err)]. *)
Definition Zlib : Type := list byte -> string + list byte.

(** The options of [gzip] the stream itself reads. *)
Record GzipOptions := mkGzipOptions {
  ext : option string;
  smaller : bool
}.

Inductive GzipError :=
| GzipUnsupportedStream        (* PluginError: Stream content is not supported *)
| ZlibFailure (msg : string).

Record GzipOutcome := mkGzipOutcome {
  gz_file : option File;
  gz_error : option GzipError
}.

(** [options.ext] after [if (!options) options = {}] and
    [if (!options.ext) options.ext = ''], and [options.smaller]. *)
Definition gzip_ext (options : option GzipOptions) : string :=
  match options with
  | Some o => JS.or_else (ext o) EmptyString
  | None => EmptyString
  end.

Definition gzip_smaller (options : option GzipOptions) : bool :=
  match options with
  | Some o => smaller o
  | None => false
  end.

(** The transform of [gzip(options)].  Vinyl derives [relative] from
    [path], so the extension added to the path shows there too. *)
Definition gzip_transform (zlib : Zlib) (options : option GzipOptions)
    (file : File) : GzipOutcome :=
  match contents file with
  | CNull => mkGzipOutcome None None
  | CStream => mkGzipOutcome None (Some GzipUnsupportedStream)
  | CBuffer original =>
      let i := s3_of file in
      match zlib original with
      | inl msg => mkGzipOutcome None (Some (ZlibFailure msg))
      | inr buf =>
          if gzip_smaller options && (length original <=? length buf)%nat
          then mkGzipOutcome (Some (with_s3 file i)) None
          else
            let e := gzip_ext options in
            let headers :=
              JS.set (s3_headers i) "Content-Encoding" (JS.VStr "gzip") in
            mkGzipOutcome
              (Some (mkFile (path file +:+ e) (relative file +:+ e)
                            (Some (path file)) (CBuffer buf)
                            (Some (mkS3 (s3_path i +:+ e) headers (s3_state i)
                                        (s3_etag i) (s3_date i)))))
              None
      end
  end.

(** ** More notions for the statements *)

(** The name under which [toAwsParams] passes a header on. *)
Definition param_name (X : Externals) (header : string) : string :=
  if String.eqb header "x-amz-acl" then "ACL"
  else if String.eqb header "Content-MD5" then "ContentMD5"
       else pascalCase X header.

(** Whether a character occurs in a string. *)
Fixpoint occurs (c : ascii) (s : string) : bool :=
  match s with
  | EmptyString => false
  | String c' r => Ascii.eqb c' c || occurs c r
  end.

(** The file system after a series of [writeFileSync] calls. *)
Definition fs_after (writes : list (string * string))
    (fs : gmap string string) : gmap string string :=
  fold_left (fun fs w => <[fst w := snd w]> fs) writes fs.

(** The headers of the file an outcome carries. *)
Definition out_headers (o : Outcome) : JS.Obj :=
  match out_file o with
  | Some f => match s3 f with Some i => s3_headers i | None => [] end
  | None => []
  end.

(** The remote key of a file as the cache stream sees it. *)
Definition cache_key (file : File) : option string :=
  match s3 file with
  | Some i => if JS.truthy_str (s3_path i) then Some (s3_path i) else None
  | None => None
  end.

(** The same options with [compress] left out. *)
Definition without_compress (options : Options) : Options :=
  mkOptions (force options) (noAcl options) (simulate options)
            (createOnly options) None.

(** The two halves of [add_headers]: the content type with the suffixes
    of [options.compress] (lines 337 to 348), then the content length and
    the headers given to [publish] (lines 350 to 355). *)
Definition content_type_step (X : Externals) (options : Options)
    (fi : File * S3Info) : File * S3Info :=
  if negb (JS.truthy (JS.get (s3_headers (snd fi)) "Content-Type")) then
    let fi' :=
      match compress options with
      | Some c => fold_left compress_key c fi
      | None => fi
      end in
    (fst fi',
     set_headers (snd fi')
       (JS.set (s3_headers (snd fi')) "Content-Type"
          (JS.VStr (getContentType X (fst fi')))))
  else fi.

Definition length_and_given (headers : JS.Obj) (buf : list byte)
    (i : S3Info) : S3Info :=
  let i :=
    if negb (JS.truthy (JS.get (s3_headers i) "Content-Length"))
    then set_headers i
           (JS.set (s3_headers i) "Content-Length"
              (JS.VNum (Z.of_nat (length buf))))
    else i in
  set_headers i
    (fold_left (fun h hv => JS.set h (fst hv) (snd hv)) headers (s3_headers i)).

(** ** More sample data *)

Module Sample2.

(** A zlib stand-in: it prefixes two bytes, fails on the empty buffer. *)
Definition zlib : Zlib :=
  fun buf => match buf with
             | [] => inl "unexpected end of file"
             | _ => inr (x1f :: x8b :: buf)
             end.

Definition gz : GzipOptions := mkGzipOptions (Some ".gz") false.
Definition gz_smaller : GzipOptions := mkGzipOptions (Some ".gz") true.

(** [a.txt] once [gzip] with extension [.gz] went over it. *)
Definition a_txt_gz : File :=
  mkFile "/src/a.txt.gz" "a.txt.gz" (Some "/src/a.txt")
         (CBuffer (x1f :: x8b :: Sample.hi))
         (Some (mkS3 "a.txt.gz" [("Content-Encoding", JS.VStr "gzip")]
                     None None None)).

(** A file named with backslashes, as on Windows. *)
Definition win : File :=
  mkFile "C:\src\css\a.css" "css\a.css" None (CBuffer Sample.hi) None.

(** A file compressed before it entered the pipeline. *)
Definition named_gz : File :=
  mkFile "/src/a.txt.gz" "a.txt.gz" None (CBuffer Sample.hi) None.

(** A file that arrives with its content type set upstream. *)
Definition typed : File :=
  mkFile "/src/a.txt.gz" "a.txt.gz" None (CBuffer Sample.hi)
         (Some (mkS3 "a.txt.gz" [("Content-Type", JS.VStr "text/html")]
                     None None None)).

Definition compressing : Options :=
  mkOptions false false false false (Some [(".gz", "gzip")]).
Definition simulating : Options := mkOptions false false true false None.
Definition forcing : Options := mkOptions true false false false None.

(** A bucket in which every key holds "hi". *)
Definition same_content : S3Client :=
  mkClient (fun _ => inr (mkHead (Some Sample.etag_hi) (Some "yesterday")))
           (fun _ => None) (fun _ => []) (fun _ => None).

(** A bucket that refuses writes. *)
Definition read_only : S3Client :=
  mkClient (fun _ => inl (Sample.err 404))
           (fun _ => Some (Sample.err 403)) (fun _ => []) (fun _ => None).

(** The search of the pattern [/a/]: the end of the first "a" at or
    after index [from], the string being read from index [pos]. *)
Fixpoint first_a (s : string) (pos from : nat) : option nat :=
  match s with
  | EmptyString => None
  | String c r =>
      if (from <=? pos)%nat && Ascii.eqb c "a"%char then Some (S pos)
      else first_a r (S pos) from
  end.

(** The patterns [/a/g] and [/a/], fresh. *)
Definition a_global : RegExp := mkRegExp true (fun s i => first_a s 0 i) 0.
Definition a_plain : RegExp := mkRegExp false (fun s i => first_a s 0 i) 0.

(** A file with the relative path [__proto__] holding "hi", fresh from
    the file system. *)
Definition proto_file : File :=
  mkFile "/src/__proto__" "__proto__" None (CBuffer Sample.hi) None.

(** A file as a cache hit leaves [publish]. *)
Definition hit (key : string) : File :=
  mkFile key key None (CBuffer Sample.hi)
         (Some (mkS3 key [] (Some "cache") None None)).

End Sample2.

(** ** Basic facts *)

Lemma fingerprint_truthy (X : Externals) (buf : list byte) :
  JS.truthy_str (fingerprint X buf) = true.
Proof. reflexivity. Qed.

Lemma state_is_set_state (i : S3Info) (st st' : string) :
  state_is (set_state i st) st' = String.eqb st st'.
Proof. reflexivity. Qed.

Lemma key_of_initFile (file : File) : key_of (initFile file) = key_of file.
Proof. reflexivity. Qed.

(** [add_headers] touches the headers and [unzipPath] only. *)
Lemma compress_key_keeps (fi : File * S3Info) (kv : string * string) :
  let fi' := compress_key fi kv in
  contents (fst fi') = contents (fst fi) ∧ s3_path (snd fi') = s3_path (snd fi)
  ∧ s3_state (snd fi') = s3_state (snd fi) ∧ s3_etag (snd fi') = s3_etag (snd fi)
  ∧ s3_date (snd fi') = s3_date (snd fi).
Proof.
  destruct fi as [f i], kv as [k e]; unfold compress_key; simpl.
  destruct (negb (JS.truthy_ostr (unzipPath f)) && JS.endsWith (path f) k);
    [ destruct (negb (JS.truthy (JS.get (s3_headers i) "Content-Encoding"))) | ];
    simpl; auto.
Qed.

Lemma compress_fold_keeps (c : list (string * string)) (fi : File * S3Info) :
  let fi' := fold_left compress_key c fi in
  contents (fst fi') = contents (fst fi) ∧ s3_path (snd fi') = s3_path (snd fi)
  ∧ s3_state (snd fi') = s3_state (snd fi) ∧ s3_etag (snd fi') = s3_etag (snd fi)
  ∧ s3_date (snd fi') = s3_date (snd fi).
Proof.
  revert fi; induction c as [|kv c IH]; intros fi; simpl; [auto|].
  destruct (IH (compress_key fi kv)) as (H1 & H2 & H3 & H4 & H5).
  destruct (compress_key_keeps fi kv) as (K1 & K2 & K3 & K4 & K5).
  simpl in *. repeat split; congruence.
Qed.

Lemma add_headers_keeps (X : Externals) (headers : JS.Obj) (options : Options)
    (buf : list byte) (fi : File * S3Info) :
  let fi' := add_headers X headers options buf fi in
  contents (fst fi') = contents (fst fi) ∧ s3_path (snd fi') = s3_path (snd fi)
  ∧ s3_state (snd fi') = s3_state (snd fi) ∧ s3_etag (snd fi') = s3_etag (snd fi)
  ∧ s3_date (snd fi') = s3_date (snd fi).
Proof.
  unfold add_headers.
  destruct (negb (JS.truthy (JS.get (s3_headers (snd fi)) "Content-Type"))).
  - destruct (compress options) as [c|].
    + pose proof (compress_fold_keeps c fi) as K. simpl in K.
      destruct (fold_left compress_key c fi) as [f i]. simpl in *.
      destruct (negb (JS.truthy (JS.get _ "Content-Length"))); simpl; exact K.
    + destruct fi as [f i]; simpl.
      destruct (negb (JS.truthy (JS.get _ "Content-Length"))); simpl; auto.
  - destruct fi as [f i]; simpl.
    destruct (negb (JS.truthy (JS.get _ "Content-Length"))); simpl; auto.
Qed.

(** What a file emitted by [publish] carries, when it was not marked for
    deletion and the run is not simulated: either the mark of a cache
    hit, or the decision taken with the fingerprint and a date. *)
Lemma publish_emitted (X : Externals) (cache : gmap string string)
    (headers : JS.Obj) (options : Options) (client : S3Client)
    (file : File) (buf : list byte) (f1 : File) :
  contents file = CBuffer buf →
  state_is (s3_of file) "delete" = false →
  simulate options = false →
  out_file (publish_transform X cache headers options client file) = Some f1 →
  ∃ i1, s3 f1 = Some i1 ∧ s3_path i1 = key_of file
        ∧ contents f1 = CBuffer buf
        ∧ ((s3_state i1 = Some "cache"
            ∧ cache !! key_of file = Some (fingerprint X buf))
           ∨ (s3_etag i1 = Some (fingerprint X buf)
              ∧ is_Some (s3_date i1)
              ∧ (s3_state i1 = Some "skip" ∨ s3_state i1 = Some "update"
                 ∨ s3_state i1 = Some "create"))).
Proof.
  intros Hc Hd Hs. unfold publish_transform. rewrite Hc, Hd, Hs.
  fold (fingerprint X buf).
  destruct (negb (force options)
            && bool_decide (cache !! s3_path (s3_of file) = Some (fingerprint X buf)))
    eqn:Hhit.
  - simpl. intros [= <-]. eexists; split; [reflexivity|].
    apply andb_true_iff in Hhit as [_ Hhit]. apply bool_decide_eq_true in Hhit.
    simpl. split; [reflexivity|]. split; [exact Hc|]. left. split; [reflexivity|exact Hhit].
  - pose proof (add_headers_keeps X headers options buf (file, s3_of file)) as K.
    destruct (add_headers X headers options buf (file, s3_of file)) as [f i].
    simpl in K. destruct K as (K1 & K2 & K3 & K4 & K5).
    assert (Hdecide : ∀ err res,
      out_file (head_decide X options client (fingerprint X buf) f i err res)
        = Some f1 →
      ∃ i1, s3 f1 = Some i1 ∧ s3_path i1 = key_of file
        ∧ contents f1 = CBuffer buf
        ∧ ((s3_state i1 = Some "cache"
            ∧ cache !! key_of file = Some (fingerprint X buf))
           ∨ (s3_etag i1 = Some (fingerprint X buf)
              ∧ is_Some (s3_date i1)
              ∧ (s3_state i1 = Some "skip" ∨ s3_state i1 = Some "update"
                 ∨ s3_state i1 = Some "create")))).
    { intros err res. unfold head_decide.
      destruct (_ || _).
      - destruct err; simpl; [discriminate|]. intros [= <-].
        eexists; split; [reflexivity|]. simpl.
        split; [exact K2|]. split; [congruence|]. right. eauto 6.
      - destruct (putObject client _); simpl; [discriminate|]. intros [= <-].
        eexists; split; [reflexivity|]. simpl.
        split; [exact K2|]. split; [congruence|]. right.
        destruct (JS.truthy_ostr _); eauto 6. }
    destruct (headObject client (s3_path i)) as [e|r]; unfold headObject_cb.
    + destruct (not_benign e); [simpl; discriminate | apply Hdecide].
    + apply Hdecide.
Qed.

(** ** The cache stream, file by file *)

Lemma assign_insert (o : gmap string string) (k v : string) :
  k ≠ "__proto__" → JS.assign o k v = <[k := v]> o.
Proof.
  intros Hk. unfold JS.assign. apply String.eqb_neq in Hk. rewrite Hk.
  reflexivity.
Qed.

Lemma assign_other (o : gmap string string) (k k' v : string) :
  k ≠ k' → JS.assign o k v !! k' = o !! k'.
Proof.
  intros Hk. unfold JS.assign. destruct (_ && _); [reflexivity|].
  apply lookup_insert_ne, Hk.
Qed.

Section CacheFacts.

Context (X : Externals).

Lemma cache_under_flush (st : CacheState) (b : bool) :
  _cache (cs_pub (if b then saveCache X (incr_counter st) else incr_counter st))
  = _cache (cs_pub st).
Proof. destruct b; reflexivity. Qed.

Lemma cache_transform_hit (st : CacheState) (file : File) (i : S3Info) :
  s3 file = Some i → state_is i "cache" = true →
  cache_transform X st file = st.
Proof.
  intros Hs Hst. unfold cache_transform. rewrite Hs, Hst.
  destruct (JS.truthy_str (s3_path i)); reflexivity.
Qed.

Lemma cache_transform_delete (st : CacheState) (file : File) (i : S3Info) :
  s3 file = Some i → JS.truthy_str (s3_path i) = true →
  state_is i "delete" = true →
  _cache (cs_pub (cache_transform X st file))
  = delete (s3_path i) (_cache (cs_pub st)).
Proof.
  intros Hs Hp Hst. unfold cache_transform. rewrite Hs, Hp, Hst.
  assert (state_is i "cache" = false) as ->.
  { unfold state_is in *. destruct (s3_state i) as [s|]; [|done].
    apply String.eqb_eq in Hst as ->. reflexivity. }
  apply (cache_under_flush (set_cache st _)).
Qed.

Lemma cache_transform_etag (st : CacheState) (file : File) (i : S3Info)
    (e : string) :
  s3 file = Some i → JS.truthy_str (s3_path i) = true →
  s3_path i ≠ "__proto__" →
  state_is i "cache" = false → state_is i "delete" = false →
  s3_etag i = Some e → JS.truthy_str e = true →
  _cache (cs_pub (cache_transform X st file))
  = <[s3_path i := e]> (_cache (cs_pub st)).
Proof.
  intros Hs Hp Hproto Hc Hd He Ht. unfold cache_transform.
  rewrite Hs, Hp, Hc, Hd, He, Ht, (assign_insert _ _ _ Hproto).
  apply (cache_under_flush (set_cache st _)).
Qed.

Lemma cache_transform_assign (st : CacheState) (file : File) (i : S3Info)
    (e : string) :
  s3 file = Some i → JS.truthy_str (s3_path i) = true →
  state_is i "cache" = false → state_is i "delete" = false →
  s3_etag i = Some e → JS.truthy_str e = true →
  _cache (cs_pub (cache_transform X st file))
  = JS.assign (_cache (cs_pub st)) (s3_path i) e.
Proof.
  intros Hs Hp Hc Hd He Ht. unfold cache_transform.
  rewrite Hs, Hp, Hc, Hd, He, Ht.
  apply (cache_under_flush (set_cache st _)).
Qed.

(** Once the cache stream has seen a file that [publish] emitted, the
    cache holds the fingerprint of its contents under its key. *)
Lemma cache_after_publish (cache : gmap string string) (headers : JS.Obj)
    (options : Options) (client : S3Client) (file : File) (buf : list byte)
    (f1 : File) (st : CacheState) :
  contents file = CBuffer buf →
  state_is (s3_of file) "delete" = false →
  simulate options = false →
  JS.truthy_str (key_of file) = true →
  key_of file ≠ "__proto__" →
  _cache (cs_pub st) = cache →
  out_file (publish_transform X cache headers options client file) = Some f1 →
  _cache (cs_pub (cache_transform X st f1)) !! key_of file
  = Some (fingerprint X buf).
Proof.
  intros Hc Hd Hs Hk Hproto Hst Hout.
  destruct (publish_emitted X cache headers options client file buf f1
              Hc Hd Hs Hout) as (i1 & Hs3 & Hp & _ & [[Hhit Hin]|(He & _ & Hdec)]).
  - rewrite (cache_transform_hit st f1 i1 Hs3); [congruence|].
    unfold state_is. rewrite Hhit. reflexivity.
  - rewrite (cache_transform_etag st f1 i1 (fingerprint X buf) Hs3);
      try (rewrite ?Hp; done).
    + rewrite Hp. apply lookup_insert_eq.
    + unfold state_is. destruct Hdec as [-> | [-> | ->]]; reflexivity.
    + unfold state_is. destruct Hdec as [-> | [-> | ->]]; reflexivity.
Qed.

End CacheFacts.

(** ** Cache hits *)

(** C1, amended.  A file with a buffer payload that was not marked
    [delete] upstream, whose key has a cache entry equal to the freshly
    computed fingerprint, is marked [cache] when force mode is off, and
    the transform stops there: the emitted file has the headers it came
    with, and the trace of client calls is empty.  In particular, when a
    first publish (not simulated) emitted a file with these contents and
    this non-empty key and the cache stream recorded it, a second publish
    without force mode is such a cache hit.  (The key is taken not to be
    [__proto__], which the cache object does not store.) *)
Theorem C1_cache_hit_stops (X : Externals) (cache : gmap string string)
    (headers : JS.Obj) (options : Options) (client : S3Client)
    (file : File) (buf : list byte) :
  contents file = CBuffer buf →
  state_is (s3_of file) "delete" = false →
  force options = false →
  (cache !! key_of file = Some (fingerprint X buf) →
   publish_transform X cache headers options client file = cache_hit file)
  ∧ (∀ cache0 headers0 options0 client0 file0 f0 st,
       contents file0 = CBuffer buf →
       key_of file0 = key_of file →
       state_is (s3_of file0) "delete" = false →
       simulate options0 = false →
       JS.truthy_str (key_of file) = true →
       key_of file ≠ "__proto__" →
       _cache (cs_pub st) = cache0 →
       out_file (publish_transform X cache0 headers0 options0 client0 file0)
       = Some f0 →
       cache = _cache (cs_pub (cache_transform X st f0)) →
       publish_transform X cache headers options client file = cache_hit file).
Proof.
  intros Hc Hd Hf.
  assert (Hhit : cache !! key_of file = Some (fingerprint X buf) →
                 publish_transform X cache headers options client file
                 = cache_hit file).
  { intros Hin. unfold publish_transform. rewrite Hc, Hd, Hf.
    fold (fingerprint X buf). fold (key_of file). rewrite Hin.
    rewrite bool_decide_eq_true_2 by reflexivity. reflexivity. }
  split; [exact Hhit|].
  intros cache0 headers0 options0 client0 file0 f0 st Hc0 Hk Hd0 Hs0 Ht Hproto
         Hst Hout ->.
  apply Hhit. rewrite <- Hk.
  apply (cache_after_publish X cache0 headers0 options0 client0 file0 buf f0 st);
    auto; rewrite Hk; assumption.
Qed.

Lemma C1_cache_hit_stops_witness :
  publish_transform Sample.X Sample.cache_hi Sample.acl Sample.defaults
    Sample.failing Sample.a_txt
  = cache_hit Sample.a_txt
  ∧ publish_transform Sample.X
      (_cache (cs_pub (cache_transform Sample.X (cache_start Sample.pub)
                         Sample.a_txt_created)))
      Sample.acl Sample.defaults Sample.failing Sample.a_txt
    = cache_hit Sample.a_txt.
Proof.
  destruct (C1_cache_hit_stops Sample.X Sample.cache_hi Sample.acl
              Sample.defaults Sample.failing Sample.a_txt Sample.hi
              eq_refl eq_refl eq_refl) as [A _].
  destruct (C1_cache_hit_stops Sample.X
              (_cache (cs_pub (cache_transform Sample.X
                                 (cache_start Sample.pub) Sample.a_txt_created)))
              Sample.acl Sample.defaults Sample.failing Sample.a_txt Sample.hi
              eq_refl eq_refl eq_refl) as [_ B].
  split.
  - apply A. vm_compute. reflexivity.
  - apply (B ∅ Sample.acl Sample.defaults Sample.empty_bucket Sample.a_txt
             Sample.a_txt_created (cache_start Sample.pub));
      first [reflexivity | discriminate].
Defined.

(** A file marked [delete] upstream passes through as it is, whatever
    the cache holds: here the cache entry equals the fingerprint and
    force mode is off, and the file is emitted in state [delete]. *)
Lemma C1_delete_mark_wins :
  contents Sample.a_txt_deleted = CBuffer Sample.hi
  ∧ Sample.cache_hi !! key_of Sample.a_txt_deleted
    = Some (fingerprint Sample.X Sample.hi)
  ∧ force Sample.defaults = false
  ∧ out_state (publish_transform Sample.X Sample.cache_hi Sample.acl
                 Sample.defaults Sample.empty_bucket Sample.a_txt_deleted)
    = Some "delete"
  ∧ publish_transform Sample.X Sample.cache_hi Sample.acl Sample.defaults
      Sample.empty_bucket Sample.a_txt_deleted
    ≠ cache_hit Sample.a_txt_deleted.
Proof.
  split; [reflexivity|]. split; [vm_compute; reflexivity|].
  split; [reflexivity|]. split; [reflexivity|]. discriminate.
Qed.

(** ** Reconciliation *)

Lemma regexp_test_unflagged (expr : RegExp) (key : string) :
  flagged expr = false →
  regexp_test expr key = (entry_matches key (WRegExp expr), expr).
Proof. intros Hf. unfold regexp_test. rewrite Hf. reflexivity. Qed.

Lemma fileShouldBeDeleted_ret (key : string) (whitelist : list WhitelistEntry)
    (b : bool) (whitelist' : list WhitelistEntry) :
  Forall unflagged whitelist →
  fileShouldBeDeleted key whitelist = Ret (b, whitelist') →
  b = negb (whitelisted key whitelist) ∧ whitelist' = whitelist.
Proof.
  intros Hun. revert b whitelist'.
  induction Hun as [|[expr|s|] rest Hflag _ IH]; intros b whitelist'; simpl.
  - intros [= <- <-]. split; reflexivity.
  - rewrite (regexp_test_unflagged expr key Hflag). simpl.
    destruct (match search expr key 0 with Some _ => true | None => false end).
    + intros [= <- <-]. split; reflexivity.
    + destruct (fileShouldBeDeleted key rest) as [[answer rest']|msg];
        [|discriminate].
      intros [= <- <-]. destruct (IH answer rest' eq_refl) as [-> ->].
      split; reflexivity.
  - destruct (String.eqb s key).
    + intros [= <- <-]. split; reflexivity.
    + destruct (fileShouldBeDeleted key rest) as [[answer rest']|msg];
        [|discriminate].
      intros [= <- <-]. destruct (IH answer rest' eq_refl) as [-> ->].
      split; reflexivity.
  - discriminate.
Qed.

Lemma fileShouldBeDeleted_total (key : string)
    (whitelist : list WhitelistEntry) :
  Forall well_formed whitelist → Forall unflagged whitelist →
  fileShouldBeDeleted key whitelist
  = Ret (negb (whitelisted key whitelist), whitelist).
Proof.
  induction 1 as [|[expr|s|] rest Hwf _ IH]; intros Hun; simpl.
  - reflexivity.
  - apply Forall_cons in Hun as [Hflag Hun].
    rewrite (regexp_test_unflagged expr key Hflag). simpl.
    destruct (match search expr key 0 with Some _ => true | None => false end);
      [reflexivity|].
    rewrite (IH Hun). reflexivity.
  - apply Forall_cons in Hun as [_ Hun].
    destruct (String.eqb s key); [reflexivity|].
    rewrite (IH Hun). reflexivity.
  - destruct Hwf.
Qed.

Lemma lister_data_ret (newFiles : gset string) (whitelist : list WhitelistEntry)
    (keys toDelete result : list string) :
  Forall unflagged whitelist →
  lister_data newFiles whitelist keys toDelete = Ret result →
  result = (toDelete ++ reconciled keys newFiles whitelist)%list.
Proof.
  intros Hun. unfold reconciled. revert toDelete.
  induction keys as [|key rest IH]; intros toDelete; simpl.
  - intros [= <-]. rewrite filter_nil, app_nil_r. reflexivity.
  - destruct (bool_decide (key ∈ newFiles) || JS.inherited key) eqn:Hskip.
    + intros Hr. rewrite filter_cons_False; [auto|].
      intros (Hnew & Hinh & _). apply orb_true_iff in Hskip as [Hin|Hin].
      * apply bool_decide_eq_true in Hin. contradiction.
      * congruence.
    + apply orb_false_iff in Hskip as [Hnew Hinh].
      apply bool_decide_eq_false in Hnew.
      destruct (fileShouldBeDeleted key whitelist) as [[answer wl']|msg] eqn:Hw;
        [|discriminate].
      destruct (fileShouldBeDeleted_ret key whitelist answer wl' Hun Hw)
        as [-> ->].
      destruct (whitelisted key whitelist) eqn:Hwl; simpl; intros Hr.
      * rewrite filter_cons_False
          by (intros (_ & _ & Hn); simpl in Hn; congruence).
        auto.
      * rewrite filter_cons_True by auto.
        rewrite (IH _ Hr), <- app_assoc. reflexivity.
Qed.

Lemma lister_data_total (newFiles : gset string)
    (whitelist : list WhitelistEntry) (keys toDelete : list string) :
  Forall well_formed whitelist → Forall unflagged whitelist →
  ∃ result, lister_data newFiles whitelist keys toDelete = Ret result.
Proof.
  intros Hwf Hun. revert toDelete.
  induction keys as [|key rest IH]; intros toDelete; simpl; [eauto|].
  destruct (bool_decide (key ∈ newFiles) || JS.inherited key); [apply IH|].
  rewrite (fileShouldBeDeleted_total key whitelist Hwf Hun).
  destruct (negb (whitelisted key whitelist)); apply IH.
Qed.

Lemma sync_files_ret (files : list File) (newFiles : gset string) :
  Forall (λ f, is_Some (s3 f)) files →
  sync_files newFiles files = Ret (published_keys files ∪ newFiles).
Proof.
  intros Hs3. revert newFiles.
  induction Hs3 as [|file rest [i Hi] _ IH]; intros newFiles; simpl.
  - f_equal. unfold published_keys. simpl.
    rewrite (left_id_L ∅ (∪)). reflexivity.
  - unfold sync_transform. rewrite Hi, IH. f_equal.
    unfold published_keys. simpl. rewrite Hi. simpl.
    rewrite (assoc_L (∪)), (comm_L (∪) _ {[s3_path i]}). reflexivity.
Qed.

(** C2, as the code behaves.  A listed key that is the name of a
    property every object inherits is never deleted, though it was not
    published and no whitelist entry matches it: [newFiles[key]] reads
    the inherited property.  And a key that a whitelist pattern with the
    [g] flag matches is deleted when the test before it left [lastIndex]
    beyond the match.  In both runs the delete set differs from the
    listing minus the published keys minus the whitelisted keys. *)
Theorem C2_inherited_and_flagged_keys :
  (∃ o, sync (Sample.listing ["constructor"; "d"]) None None [] = Ret o
        ∧ fl_toDelete o = ["d"]
        ∧ delete_set ["constructor"; "d"] (published_keys []) []
          = ["constructor"; "d"])
  ∧ (∃ o, sync (Sample.listing ["xa"; "ax"]) None
               (Some [WRegExp Sample2.a_global]) [] = Ret o
          ∧ fl_toDelete o = ["ax"]
          ∧ whitelisted "ax" [WRegExp Sample2.a_global] = true
          ∧ delete_set ["xa"; "ax"] (published_keys [])
                       [WRegExp Sample2.a_global] = []).
Proof.
  split.
  - eexists. split; [vm_compute; reflexivity|]. split; reflexivity.
  - eexists. split; [vm_compute; reflexivity|].
    split; [reflexivity|]. split; reflexivity.
Qed.

(** X27.  Every file of the run carrying its [s3] record and no pattern
    of the whitelist carrying the [g] or the [y] flag, [sync] computes as
    its delete set exactly the listing under the prefix, minus the keys
    published in the run, minus the names every object inherits, minus
    the keys that equal a whitelist string or match a whitelist pattern;
    no whitelisted, inherited or published key is in it.  With a
    whitelist of strings and patterns only the delete set is always
    computed. *)
Theorem X27_delete_set_reconciled (client : S3Client) (prefix : option string)
    (whitelistedFiles : option (list WhitelistEntry)) (files : list File) :
  Forall (λ f, is_Some (s3 f)) files →
  Forall unflagged (default [] whitelistedFiles) →
  (Forall well_formed (default [] whitelistedFiles) →
   ∃ o, sync client prefix whitelistedFiles files = Ret o)
  ∧ (∀ o, sync client prefix whitelistedFiles files = Ret o →
          fl_toDelete o
          = reconciled (listObjects client (JS.or_else prefix EmptyString))
                       (published_keys files) (default [] whitelistedFiles)
          ∧ ∀ key, whitelisted key (default [] whitelistedFiles) = true
                   ∨ JS.inherited key = true
                   ∨ key ∈ published_keys files →
                   key ∉ fl_toDelete o).
Proof.
  intros Hs3 Hun. unfold sync, sync_flush.
  rewrite (sync_files_ret files ∅ Hs3).
  replace (match whitelistedFiles with Some w => w | None => [] end)
    with (default [] whitelistedFiles) by (destruct whitelistedFiles; done).
  split.
  - intros Hwf.
    destruct (lister_data_total (published_keys files ∪ ∅)
                (default [] whitelistedFiles)
                (listObjects client (JS.or_else prefix EmptyString)) []
                Hwf Hun)
      as [result ->].
    destruct (lister_end client result). eauto.
  - intros o.
    destruct (lister_data _ _ _ _) as [result|msg] eqn:Hl; [|discriminate].
    apply (lister_data_ret _ _ _ _ _ Hun) in Hl. simpl in Hl.
    rewrite (right_id_L ∅ (∪)) in Hl.
    destruct (lister_end client result). intros [= <-]. simpl.
    split; [exact Hl|].
    intros key Hcase. rewrite Hl. unfold reconciled.
    rewrite list_elem_of_filter. intros [(Hnew & Hinh & Hn) _].
    destruct Hcase as [Hw | [Hi | Hp]]; [congruence | congruence | contradiction].
Qed.

Lemma X27_delete_set_reconciled_witness :
  ∃ o, sync (Sample.listing ["a"; "b"; "c"; "d"]) None (Some [WString "c"])
            [Sample.created "a"; Sample.created "b"] = Ret o
       ∧ fl_toDelete o = ["d"].
Proof.
  destruct (X27_delete_set_reconciled (Sample.listing ["a"; "b"; "c"; "d"])
              None (Some [WString "c"])
              [Sample.created "a"; Sample.created "b"])
    as [Htotal Hexact].
  - repeat constructor; eexists; reflexivity.
  - repeat constructor.
  - destruct Htotal as [o Ho]; [repeat constructor|].
    exists o. split; [exact Ho|].
    destruct (Hexact o Ho) as [-> _]. vm_compute. reflexivity.
Defined.

(** ** Headers *)

Lemma get_set_eq (o : JS.Obj) (k : string) (v : JS.Val) :
  JS.get (JS.set o k v) k = Some v.
Proof.
  induction o as [|[k' v'] o IH]; simpl.
  - rewrite String.eqb_refl. reflexivity.
  - destruct (String.eqb k' k) eqn:E; simpl; rewrite E; [reflexivity | exact IH].
Qed.

Lemma get_set_ne (o : JS.Obj) (k k' : string) (v : JS.Val) :
  k ≠ k' → JS.get (JS.set o k v) k' = JS.get o k'.
Proof.
  intros Hne. induction o as [|[k0 v0] o IH]; simpl.
  - apply String.eqb_neq in Hne. rewrite Hne. reflexivity.
  - destruct (String.eqb k0 k) eqn:E; simpl.
    + apply String.eqb_eq in E as ->.
      apply String.eqb_neq in Hne. rewrite Hne. reflexivity.
    + destruct (String.eqb k0 k'); [reflexivity | exact IH].
Qed.



Lemma get_merge_other (hs o : JS.Obj) (k : string) :
  k ∉ hs.*1 →
  JS.get (fold_left (fun h hv => JS.set h (fst hv) (snd hv)) hs o) k
  = JS.get o k.
Proof.
  revert o. induction hs as [|[k' v'] hs IH]; intros o Hk; simpl; [reflexivity|].
  simpl in Hk. apply not_elem_of_cons in Hk as [Hne Hk].
  rewrite (IH _ Hk). apply get_set_ne. congruence.
Qed.

(** Every header given to [publish] ends up on the file. *)
Lemma get_merge_given (hs o : JS.Obj) (k : string) (v : JS.Val) :
  NoDup hs.*1 → (k, v) ∈ hs →
  JS.get (fold_left (fun h hv => JS.set h (fst hv) (snd hv)) hs o) k = Some v.
Proof.
  revert o. induction hs as [|[k' v'] hs IH]; intros o Hnd Hin; simpl.
  - inversion Hin.
  - simpl in Hnd. apply NoDup_cons in Hnd as [Hfresh Hnd].
    apply elem_of_cons in Hin as [[= -> ->]|Hin].
    + rewrite (get_merge_other hs _ k' Hfresh). apply get_set_eq.
    + apply IH; assumption.
Qed.


(** ** What the decider emits *)

(** With a 403 or a 404 there is no response: the decision is the one
    taken for an object without [ETag]. *)
Lemma head_decide_absent (X : Externals) (options : Options)
    (client : S3Client) (etag : string) (f : File) (i : S3Info)
    (e : AwsError) :
  head_decide X options client etag f i (Some e) None
  = head_decide X options client etag f i None None.
Proof. unfold head_decide. simpl. rewrite !andb_false_r. reflexivity. Qed.






(** ** Persisting the cache *)

Section Flushes.

Context (X : Externals).

#[local] Arguments Nat.modulo : simpl never.
#[local] Arguments Nat.div : simpl never.

Lemma cache_transform_counted (st : CacheState) (file : File) :
  counted file = true →
  counter (cache_transform X st file) = S (counter st)
  ∧ length (cs_writes (cache_transform X st file))
    = (length (cs_writes st)
       + (if Nat.eqb (S (counter st) mod 10) 0 then 0 else 1))%nat.
Proof.
  unfold counted, cache_transform.
  destruct (s3 file) as [i|]; [|discriminate].
  intros [Hp Hc]%andb_true_iff. apply negb_true_iff in Hc.
  rewrite Hp, Hc.
  set (st1 := if state_is i "delete" then _ else _).
  assert (counter st1 = counter st ∧ cs_writes st1 = cs_writes st)
    as [Hn Hw].
  { subst st1. destruct (state_is i "delete"); [done|].
    destruct (s3_etag i) as [e|]; [|done].
    destruct (JS.truthy_str e); done. }
  change (counter (incr_counter st1)) with (S (counter st1)). rewrite Hn.
  destruct (Nat.eqb (S (counter st) mod 10) 0); cbn [negb].
  - unfold incr_counter; cbn [counter cs_writes].
    rewrite Hn, Hw. split; [reflexivity | lia].
  - unfold saveCache, incr_counter; cbn [counter cs_writes cs_pub].
    rewrite Hn, length_app, Hw. split; [reflexivity | cbn [length]; lia].
Qed.

(** Over [n] counted files the stream writes the cache file
    [n - n / 10] times before [finish]: after every file but each
    tenth. *)
Lemma cache_stream_writes (p : Publisher) (files : list File) :
  Forall (λ f, counted f = true) files →
  counter (cache_stream X (cache_start p) files) = length files
  ∧ length (cs_writes (cache_stream X (cache_start p) files))
    = (length files - length files / 10)%nat.
Proof.
  unfold cache_stream.
  induction files as [|file files IH] using rev_ind; intros Hall.
  - split; reflexivity.
  - apply Forall_app in Hall as [Hall Hfile].
    apply Forall_inv in Hfile.
    destruct (IH Hall) as [Hn Hw].
    rewrite fold_left_app. simpl.
    destruct (cache_transform_counted
                (fold_left (cache_transform X) files (cache_start p))
                file Hfile) as [Hn' Hw'].
    rewrite Hn', Hw', Hn, Hw, length_app. simpl.
    split; [lia|].
    destruct (Nat.eqb (S (length files) mod 10) 0) eqn:E.
    + apply Nat.eqb_eq in E.
      pose proof (Nat.div_mod_eq (S (length files)) 10).
      pose proof (Nat.div_mod_eq (length files) 10).
      pose proof (Nat.mod_upper_bound (length files) 10).
      replace (length files + 1)%nat with (S (length files)) by lia. lia.
    + apply Nat.eqb_neq in E.
      pose proof (Nat.div_mod_eq (S (length files)) 10).
      pose proof (Nat.div_mod_eq (length files) 10).
      pose proof (Nat.mod_upper_bound (length files) 10).
      pose proof (Nat.mod_upper_bound (S (length files)) 10).
      replace (length files + 1)%nat with (S (length files)) by lia. lia.
Qed.

Lemma cache_transform_tenth (st : CacheState) (file : File) :
  counted file = true → (S (counter st) mod 10 = 0)%nat →
  cs_writes (cache_transform X st file) = cs_writes st.
Proof.
  unfold counted, cache_transform.
  destruct (s3 file) as [i|]; [|discriminate].
  intros [Hp Hc]%andb_true_iff Hten. apply negb_true_iff in Hc.
  rewrite Hp, Hc.
  set (st1 := if state_is i "delete" then _ else _).
  assert (counter st1 = counter st ∧ cs_writes st1 = cs_writes st)
    as [Hn Hw].
  { subst st1. destruct (state_is i "delete"); [done|].
    destruct (s3_etag i) as [e|]; [|done].
    destruct (JS.truthy_str e); done. }
  change (counter (incr_counter st1)) with (S (counter st1)).
  rewrite Hn, Hten. exact Hw.
Qed.

Lemma cache_stream_snoc (st : CacheState) (files : list File) (file : File) :
  cache_stream X st (files ++ [file])
  = cache_transform X (cache_stream X st files) file.
Proof. unfold cache_stream. rewrite fold_left_app. reflexivity. Qed.

Lemma cache_run_writes (st : CacheState) (files : list File) :
  length (cs_writes (cache_run X st files))
  = S (length (cs_writes (cache_stream X st files))).
Proof. unfold cache_run, saveCache. simpl. rewrite length_app. simpl. lia. Qed.

End Flushes.

Lemma created_counted (n : nat) :
  Forall (λ f, counted f = true) (Sample.created <$> Sample.many_keys n).
Proof.
  apply Forall_fmap, Forall_fmap, Forall_forall. intros k _. reflexivity.
Qed.

(** C4, as the code behaves.  In a fresh run over created files the
    cache file is written right after the first file, nine times over
    the first ten files, and not after the tenth: the stream writes
    after every counted file except each tenth, where the comment in the
    source and the specification have one write per block of ten.  The write at [finish] comes on top. *)
Theorem C4_flush_skips_every_tenth (X : Externals) (p : Publisher) :
  length (cs_writes (Sample.stream_of X p 1)) = 1%nat
  ∧ length (cs_writes (Sample.stream_of X p 10)) = 9%nat
  ∧ cs_writes (Sample.stream_of X p 10) = cs_writes (Sample.stream_of X p 9)
  ∧ length (cs_writes (cache_run X (cache_start p)
                         (Sample.created <$> Sample.many_keys 10)))
    = 10%nat.
Proof.
  assert (Hlen : ∀ n, length (Sample.created <$> Sample.many_keys n) = n).
  { intros n. unfold Sample.many_keys. rewrite !length_fmap. apply length_seq. }
  assert (Hten : Sample.created <$> Sample.many_keys 10
                 = ((Sample.created <$> Sample.many_keys 9)
                      ++ [Sample.created "k9"])%list)
    by (vm_compute; reflexivity).
  unfold Sample.stream_of. split; [|split; [|split]].
  - destruct (cache_stream_writes X p _ (created_counted 1)) as [_ ->].
    rewrite Hlen. reflexivity.
  - destruct (cache_stream_writes X p _ (created_counted 10)) as [_ ->].
    rewrite Hlen. reflexivity.
  - rewrite Hten, cache_stream_snoc.
    apply cache_transform_tenth; [reflexivity|].
    destruct (cache_stream_writes X p _ (created_counted 9)) as [-> _].
    rewrite Hlen. reflexivity.
  - rewrite cache_run_writes.
    destruct (cache_stream_writes X p _ (created_counted 10)) as [_ ->].
    rewrite Hlen. reflexivity.
Qed.

(** ** The delete call *)

Lemma sync_flush_ret (client : S3Client) (newFiles : gset string)
    (prefix : option string) (whitelistedFiles : option (list WhitelistEntry))
    (o : FlushOutcome) :
  sync_flush client newFiles prefix whitelistedFiles = Ret o →
  fl_calls o
  = ListObjects (JS.or_else prefix EmptyString)
      :: fst (lister_end client (fl_toDelete o))
  ∧ fl_error o = snd (lister_end client (fl_toDelete o)).
Proof.
  unfold sync_flush.
  destruct (lister_data _ _ _ _) as [toDelete|msg]; [|discriminate].
  destruct (lister_end client toDelete) as [calls err] eqn:E.
  intros [= <-]. simpl. rewrite E. split; reflexivity.
Qed.

(** C5, amended.  Given a non-empty delete set, the flush issues exactly
    one delete call to the remote store, carrying every key of the set
    in order whatever their number, and reports the result of that call
    as the result of the flush. *)
Theorem C5_one_delete_call (client : S3Client) (newFiles : gset string)
    (prefix : option string) (whitelistedFiles : option (list WhitelistEntry))
    (o : FlushOutcome) :
  sync_flush client newFiles prefix whitelistedFiles = Ret o →
  fl_toDelete o ≠ [] →
  ∃ req, buildDeleteMultiple (Some (fl_toDelete o)) = Some req
         ∧ Objects (Delete req) = mkKey <$> fl_toDelete o
         ∧ fl_calls o
           = [ListObjects (JS.or_else prefix EmptyString);
              DeleteObjects (Some req)]
         ∧ batch_sizes (fl_calls o) = [length (fl_toDelete o)]
         ∧ fl_error o = deleteObjects client (Some req).
Proof.
  intros Hret Hne. destruct (sync_flush_ret _ _ _ _ _ Hret) as [-> ->].
  destruct (fl_toDelete o) as [|key keys]; [done|].
  eexists. split; [reflexivity|]. simpl.
  rewrite length_fmap. repeat split.
Qed.

Lemma C5_one_delete_call_witness :
  ∃ o, sync_flush (Sample.listing ["a"; "b"; "c"; "d"]) {[ "a"; "b" ]} None
                  (Some [WString "c"]) = Ret o
       ∧ fl_calls o
         = [ListObjects EmptyString;
            DeleteObjects
              (Some (mkDeleteRequest (mkDeleteSpec [mkKey "d"])))].
Proof.
  eexists. split; [vm_compute; reflexivity|].
  edestruct (C5_one_delete_call (Sample.listing ["a"; "b"; "c"; "d"])
               {[ "a"; "b" ]} None (Some [WString "c"]))
    as (req & Hreq & _ & Hcalls & _);
    [vm_compute; reflexivity | discriminate |].
  injection Hreq as <-. exact Hcalls.
Defined.

(** The store takes at most 1000 keys in one delete call; the flush
    sends the 1001 keys of this listing in a single call. *)
Lemma C5_batch_of_1001_keys :
  ∃ o, sync (Sample.listing (Sample.many_keys 1001)) None None [] = Ret o
       ∧ length (fl_toDelete o) = 1001%nat
       ∧ batch_sizes (fl_calls o) = [1001%nat].
Proof. eexists. split; [vm_compute; reflexivity|]. split; reflexivity. Qed.

(** C10.  [buildDeleteMultiple] returns nothing for an absent or empty
    key list, and a flush whose delete set is empty lists the bucket and
    completes without an error and without a delete call. *)
Theorem C10_empty_delete_set_no_call (client : S3Client)
    (newFiles : gset string) (prefix : option string)
    (whitelistedFiles : option (list WhitelistEntry)) (o : FlushOutcome) :
  sync_flush client newFiles prefix whitelistedFiles = Ret o →
  fl_toDelete o = [] →
  buildDeleteMultiple None = None
  ∧ buildDeleteMultiple (Some []) = None
  ∧ fl_calls o = [ListObjects (JS.or_else prefix EmptyString)]
  ∧ filter is_delete (fl_calls o) = []
  ∧ fl_error o = None.
Proof.
  intros Hret Hempty. destruct (sync_flush_ret _ _ _ _ _ Hret) as [-> ->].
  rewrite Hempty. repeat split.
Qed.

Lemma C10_empty_delete_set_no_call_witness :
  ∃ o, sync_flush (Sample.listing ["a"; "b"; "c"]) {[ "a"; "b" ]} None
                  (Some [WString "c"]) = Ret o
       ∧ fl_calls o = [ListObjects EmptyString]
       ∧ fl_error o = None.
Proof.
  eexists. split; [vm_compute; reflexivity|].
  edestruct (C10_empty_delete_set_no_call (Sample.listing ["a"; "b"; "c"])
               {[ "a"; "b" ]} None (Some [WString "c"]))
    as (_ & _ & Hcalls & _ & Herr);
    [vm_compute; reflexivity | reflexivity |].
  split; [exact Hcalls | exact Herr].
Defined.

(** ** The remote decision *)

(** A buffer file that is neither marked [delete] nor a cache hit, in a
    run that is not simulated, gets its headers and then the metadata
    query, whose answer goes to [headObject_cb]. *)
Lemma publish_queries (X : Externals) (cache : gmap string string)
    (headers : JS.Obj) (options : Options) (client : S3Client)
    (file : File) (buf : list byte) (f : File) (i : S3Info) :
  contents file = CBuffer buf →
  state_is (s3_of file) "delete" = false →
  negb (force options)
  && bool_decide (cache !! key_of file = Some (fingerprint X buf)) = false →
  simulate options = false →
  add_headers X headers options buf (file, s3_of file) = (f, i) →
  s3_path i = key_of file
  ∧ publish_transform X cache headers options client file
    = match headObject client (key_of file) with
      | inl err =>
          headObject_cb X options client (fingerprint X buf) f i (Some err) None
      | inr res =>
          headObject_cb X options client (fingerprint X buf) f i None (Some res)
      end.
Proof.
  intros Hc Hd Hh Hs Ha.
  pose proof (add_headers_keeps X headers options buf (file, s3_of file)) as K.
  rewrite Ha in K. simpl in K. destruct K as (_ & K2 & _).
  split; [exact K2|].
  unfold publish_transform. rewrite Hc, Hd.
  fold (fingerprint X buf). fold (key_of file). rewrite Hh, Ha, Hs, K2.
  reflexivity.
Qed.

(** C6.  When the metadata query fails with status 403 or 404 the file
    is treated as one whose object is absent: the decision is [create],
    and the write is issued.  With any other error the file is aborted:
    the error is raised, nothing is emitted, and the query is the only
    call made. *)
Theorem C6_head_errors (X : Externals) (cache : gmap string string)
    (headers : JS.Obj) (options : Options) (client : S3Client)
    (file : File) (buf : list byte) (f : File) (i : S3Info) (err : AwsError) :
  contents file = CBuffer buf →
  state_is (s3_of file) "delete" = false →
  negb (force options)
  && bool_decide (cache !! key_of file = Some (fingerprint X buf)) = false →
  simulate options = false →
  add_headers X headers options buf (file, s3_of file) = (f, i) →
  headObject client (key_of file) = inl err →
  (statusCode err = Some 403 ∨ statusCode err = Some 404 →
   let created := set_state i "create" in
   let params := toAwsParams X f created in
   publish_transform X cache headers options client file
   = head_decide X options client (fingerprint X buf) f i None None
   ∧ publish_transform X cache headers options client file
     = match putObject client params with
       | Some e =>
           mkOutcome None (Some (AwsFailure e))
                     [HeadObject (key_of file); PutObject params]
       | None =>
           mkOutcome
             (Some (with_s3 f (set_etag (set_date created DateNow)
                                        (fingerprint X buf))))
             None [HeadObject (key_of file); PutObject params]
       end)
  ∧ (statusCode err ≠ Some 403 → statusCode err ≠ Some 404 →
     publish_transform X cache headers options client file
     = mkOutcome None (Some (AwsFailure err)) [HeadObject (key_of file)]).
Proof.
  intros Hc Hd Hh Hs Ha He.
  destruct (publish_queries X cache headers options client file buf f i
              Hc Hd Hh Hs Ha) as [Hk ->].
  rewrite He. unfold headObject_cb. split.
  - intros Hbenign.
    assert (not_benign err = false) as ->.
    { unfold not_benign. destruct Hbenign as [-> | ->]; reflexivity. }
    rewrite head_decide_absent. split; [reflexivity|].
    unfold head_decide. simpl. rewrite !andb_false_r. simpl. rewrite Hk.
    destruct (putObject client _); reflexivity.
  - intros H403 H404.
    assert (not_benign err = true) as ->.
    { unfold not_benign. destruct (statusCode err) as [c|]; [|reflexivity].
      destruct (c =? 403) eqn:E3; [apply Z.eqb_eq in E3; congruence|].
      destruct (c =? 404) eqn:E4; [apply Z.eqb_eq in E4; congruence|].
      reflexivity. }
    simpl. rewrite Hk. reflexivity.
Qed.

Lemma C6_head_errors_witness :
  out_state (publish_transform Sample.X ∅ Sample.acl Sample.defaults
               Sample.empty_bucket Sample.a_txt)
  = Some "create"
  ∧ publish_transform Sample.X ∅ Sample.acl Sample.defaults Sample.failing
      Sample.a_txt
    = mkOutcome None (Some (AwsFailure (Sample.err 500))) [HeadObject "a.txt"].
Proof.
  split.
  - edestruct (C6_head_errors Sample.X ∅ Sample.acl Sample.defaults
                 Sample.empty_bucket Sample.a_txt Sample.hi)
      as [[_ ->] _]; try reflexivity.
    right. reflexivity.
  - edestruct (C6_head_errors Sample.X ∅ Sample.acl Sample.defaults
                 Sample.failing Sample.a_txt Sample.hi)
      as [_ ->]; try reflexivity; discriminate.
Defined.

(** C8.  In create-only mode, when the metadata query answers with an
    object (an [ETag]), whatever its content, the callback marks the file
    [skip], with the fingerprint and the date of the remote object, and
    issues no write: the query is the only call.  So is every file the
    query is made for; and no file whose key holds an object gets a
    write in this mode, whatever its state and whatever the cache
    holds. *)
Theorem C8_create_only_skips (X : Externals) (options : Options)
    (client : S3Client) (etag : string) (f : File) (i : S3Info)
    (res : HeadData) :
  createOnly options = true →
  JS.truthy_ostr (ETag res) = true →
  headObject_cb X options client etag f i None (Some res)
  = mkOutcome
      (Some (with_s3 f (set_date (set_etag (set_state i "skip") etag)
                                 (DateOf (LastModified res)))))
      None [HeadObject (s3_path i)]
  ∧ (∀ cache headers file buf,
       contents file = CBuffer buf →
       state_is (s3_of file) "delete" = false →
       negb (force options)
       && bool_decide (cache !! key_of file = Some (fingerprint X buf)) = false →
       simulate options = false →
       add_headers X headers options buf (file, s3_of file) = (f, i) →
       headObject client (key_of file) = inr res →
       publish_transform X cache headers options client file
       = mkOutcome
           (Some (with_s3 f (set_date (set_etag (set_state i "skip")
                                                 (fingerprint X buf))
                                      (DateOf (LastModified res)))))
           None [HeadObject (key_of file)])
  ∧ (∀ cache headers file buf,
       contents file = CBuffer buf →
       headObject client (key_of file) = inr res →
       filter is_put
         (out_calls (publish_transform X cache headers options client file))
       = []).
Proof.
  intros Hco Hex.
  assert (Hcb : ∀ etag f i,
    headObject_cb X options client etag f i None (Some res)
    = mkOutcome
        (Some (with_s3 f (set_date (set_etag (set_state i "skip") etag)
                                   (DateOf (LastModified res)))))
        None [HeadObject (s3_path i)]).
  { intros etag' f' i'. unfold headObject_cb, head_decide.
    rewrite Hco, Hex. reflexivity. }
  split; [apply Hcb|]. split.
  - intros cache headers file buf Hc Hd Hh Hs Ha He.
    destruct (publish_queries X cache headers options client file buf f i
                Hc Hd Hh Hs Ha) as [Hk ->].
    rewrite He, Hcb, Hk. reflexivity.
  - intros cache headers file buf Hc He.
    unfold publish_transform. rewrite Hc.
    destruct (state_is (s3_of file) "delete"); [reflexivity|].
    destruct (negb (force options) && bool_decide _); [reflexivity|].
    pose proof (add_headers_keeps X headers options buf (file, s3_of file)) as K.
    destruct (add_headers X headers options buf (file, s3_of file)) as [f' i'].
    simpl in K. destruct K as (_ & K2 & _).
    destruct (simulate options); [reflexivity|].
    rewrite K2. fold (key_of file). rewrite He, Hcb. reflexivity.
Qed.

Lemma C8_create_only_skips_witness :
  out_state (publish_transform Sample.X ∅ Sample.acl Sample.create_only
               Sample.other_content Sample.a_txt)
  = Some "skip"
  ∧ out_calls (publish_transform Sample.X ∅ Sample.acl Sample.create_only
                 Sample.other_content Sample.a_txt)
    = [HeadObject "a.txt"].
Proof.
  edestruct (C8_create_only_skips Sample.X Sample.create_only
               Sample.other_content (fingerprint Sample.X Sample.hi)
               Sample.a_txt
               (mkS3 "a.txt" Sample.a_txt_headers None None None)
               (mkHead (Some "other") (Some "yesterday")))
    as (_ & Hskip & _);
    [reflexivity | reflexivity |].
  rewrite (Hskip ∅ Sample.acl Sample.a_txt Sample.hi) by reflexivity.
  split; reflexivity.
Defined.

(** ** Loading the cache *)

(** C7, as the code behaves.  With a cache file whose content is the JSON
    text [null], which [JSON.parse] accepts, constructing a publisher
    raises no error and keeps [null] as the cache: neither a mapping
    from keys to fingerprints nor the empty cache, where a missing file
    and a content [JSON.parse] rejects both give the empty cache. *)
Theorem C7_null_cache_kept :
  (∃ o, newPublisher Sample.X {[ ".awspublish-bucket" := "null" ]}
                     (Some "bucket") None = Ret o
        ∧ cache_of o = JNull
        ∧ cache_of o ≠ JMapping ∅
        ∧ as_publisher o = None)
  ∧ (∃ o, newPublisher Sample.X ∅ (Some "bucket") None = Ret o
          ∧ cache_of o = JMapping ∅)
  ∧ (∃ o, newPublisher Sample.X {[ ".awspublish-bucket" := "{a.txt" ]}
                       (Some "bucket") None = Ret o
          ∧ cache_of o = JMapping ∅).
Proof.
  split; [|split].
  - eexists. split; [reflexivity|]. split; [reflexivity|].
    split; [discriminate|reflexivity].
  - eexists. split; reflexivity.
  - eexists. split; reflexivity.
Qed.

(** X28.  Constructing a publisher for a bucket raises no error and
    loads the cache from the cache file: whatever [JSON.parse] returns
    for the content when the file is there and parses (so the
    deserialized mapping when the content is one), the empty cache when
    the file is missing or [JSON.parse] rejects its content. *)
Theorem X28_load_cache (X : Externals) (fs : gmap string string)
    (bucket cacheFileName : option string) :
  JS.truthy_ostr bucket = true →
  ∃ o, newPublisher X fs bucket cacheFileName = Ret o
       ∧ (∀ content v, fs !! cacheFile_of o = Some content →
                       JSON_parse X content = Some v → cache_of o = v)
       ∧ (∀ content c, fs !! cacheFile_of o = Some content →
                       JSON_parse X content = Some (JMapping c) →
                       as_publisher o = Some (mkPublisher (cacheFile_of o) c))
       ∧ (fs !! cacheFile_of o = None → cache_of o = JMapping ∅)
       ∧ (∀ content, fs !! cacheFile_of o = Some content →
                     JSON_parse X content = None → cache_of o = JMapping ∅).
Proof.
  intros Hb. unfold newPublisher. rewrite Hb. simpl.
  eexists. split; [reflexivity|]. unfold as_publisher, loadCache. simpl.
  split; [|split; [|split]].
  - intros content v -> ->. reflexivity.
  - intros content c -> ->. reflexivity.
  - intros ->. reflexivity.
  - intros content -> ->. reflexivity.
Qed.

Lemma X28_load_cache_witness :
  (∃ o, newPublisher Sample.X {[ ".awspublish-bucket" := Sample.cache_json ]}
                     (Some "bucket") None = Ret o
        ∧ cache_of o = JMapping Sample.cache_hi)
  ∧ (∃ o, newPublisher Sample.X ∅ (Some "bucket") None = Ret o
          ∧ cache_of o = JMapping ∅)
  ∧ (∃ o, newPublisher Sample.X {[ ".awspublish-bucket" := "{a.txt" ]}
                       (Some "bucket") None = Ret o
          ∧ cache_of o = JMapping ∅).
Proof.
  split; [|split].
  - destruct (X28_load_cache Sample.X
                {[ ".awspublish-bucket" := Sample.cache_json ]}
                (Some "bucket") None eq_refl) as (o & Ho & Hload & _).
    exists o. split; [exact Ho|].
    injection Ho as <-. apply (Hload Sample.cache_json); reflexivity.
  - destruct (X28_load_cache Sample.X ∅ (Some "bucket") None eq_refl)
      as (o & Ho & _ & _ & Hmissing & _).
    exists o. split; [exact Ho|].
    injection Ho as <-. apply Hmissing. reflexivity.
  - destruct (X28_load_cache Sample.X {[ ".awspublish-bucket" := "{a.txt" ]}
                (Some "bucket") None eq_refl) as (o & Ho & _ & _ & _ & Hbad).
    exists o. split; [exact Ho|].
    injection Ho as <-. apply (Hbad "{a.txt"); reflexivity.
Defined.

(** ** Cache entries *)

(** A file that a run of [publish] (not simulated) emits in state
    [create] or [update] carries the fingerprint of its contents. *)
Lemma publish_emitted_written (X : Externals) (cache : gmap string string)
    (headers : JS.Obj) (options : Options) (client : S3Client)
    (file0 : File) (buf : list byte) (file : File) (i : S3Info) :
  contents file0 = CBuffer buf →
  simulate options = false →
  out_file (publish_transform X cache headers options client file0)
  = Some file →
  s3 file = Some i →
  s3_state i = Some "create" ∨ s3_state i = Some "update" →
  s3_etag i = Some (fingerprint X buf) ∧ s3_path i = key_of file0.
Proof.
  intros Hc Hs Hout Hs3 Hst.
  destruct (state_is (s3_of file0) "delete") eqn:Hd.
  - unfold publish_transform in Hout. rewrite Hc, Hd in Hout.
    simpl in Hout. injection Hout as <-. simpl in Hs3. injection Hs3 as <-.
    unfold state_is in Hd. destruct Hst as [Hst|Hst]; rewrite Hst in Hd;
      discriminate.
  - destruct (publish_emitted X cache headers options client file0 buf file
                Hc Hd Hs Hout) as (i1 & Hs1 & Hp & _ & Hcases).
    rewrite Hs3 in Hs1. injection Hs1 as <-. split; [|exact Hp].
    destruct Hcases as [[Hhit _]|(He & _)]; [|exact He].
    destruct Hst as [Hst|Hst]; congruence.
Qed.

(** C9, as the code behaves.  A file with the relative path [__proto__]
    that [publish] moved to state [create] carries the fingerprint of its
    contents and the key [__proto__]; when it arrives at the cache stream
    the assignment [_cache[path] = etag] stores nothing: the cache is as
    before, without an entry for the key, and not the cache with the key
    set to the fingerprint. *)
Theorem C9_proto_key_not_stored :
  ∃ file i,
    out_file (publish_transform Sample.X ∅ Sample.acl Sample.defaults
                Sample.empty_bucket Sample2.proto_file) = Some file
    ∧ s3 file = Some i
    ∧ s3_path i = "__proto__"
    ∧ s3_state i = Some "create"
    ∧ s3_etag i = Some (fingerprint Sample.X Sample.hi)
    ∧ _cache (cs_pub (cache_transform Sample.X (cache_start Sample.pub) file))
      = _cache Sample.pub
    ∧ _cache (cs_pub (cache_transform Sample.X (cache_start Sample.pub) file))
        !! "__proto__" = None
    ∧ _cache (cs_pub (cache_transform Sample.X (cache_start Sample.pub) file))
      ≠ <["__proto__" := fingerprint Sample.X Sample.hi]> (_cache Sample.pub).
Proof.
  eexists. eexists.
  split; [vm_compute; reflexivity|].
  split; [reflexivity|].
  split; [reflexivity|].
  split; [reflexivity|].
  split; [reflexivity|].
  split; [reflexivity|].
  split; [reflexivity|].
  intros Heq. apply (f_equal (λ m, m !! "__proto__")) in Heq.
  vm_compute in Heq. discriminate Heq.
Qed.


(** X29.  For a file with a remote key, the cache stream removes the key
    from the cache when the file arrives in state [delete]; when it
    arrives in state [create] or [update] it assigns the fingerprint the
    file carries to the key, which for every key but [__proto__] sets
    the key to the fingerprint; and it leaves the whole stream state as
    it is when the file arrives in state [cache].  A file that [publish]
    moved to [create] or [update] carries the fingerprint of its
    contents. *)
Theorem X29_cache_entries (X : Externals) (st : CacheState) (file : File)
    (i : S3Info) :
  s3 file = Some i →
  JS.truthy_str (s3_path i) = true →
  (s3_state i = Some "delete" →
   _cache (cs_pub (cache_transform X st file))
   = delete (s3_path i) (_cache (cs_pub st)))
  ∧ (s3_state i = Some "create" ∨ s3_state i = Some "update" →
     (∀ e, s3_etag i = Some e → JS.truthy_str e = true →
           _cache (cs_pub (cache_transform X st file))
           = JS.assign (_cache (cs_pub st)) (s3_path i) e
           ∧ (s3_path i ≠ "__proto__" →
              _cache (cs_pub (cache_transform X st file))
              = <[s3_path i := e]> (_cache (cs_pub st))))
     ∧ (∀ cache headers options client file0 buf,
          contents file0 = CBuffer buf →
          simulate options = false →
          out_file (publish_transform X cache headers options client file0)
          = Some file →
          key_of file0 ≠ "__proto__" →
          _cache (cs_pub (cache_transform X st file))
          = <[key_of file0 := fingerprint X buf]> (_cache (cs_pub st))))
  ∧ (s3_state i = Some "cache" → cache_transform X st file = st).
Proof.
  intros Hs3 Hp.
  assert (Hset : s3_state i = Some "create" ∨ s3_state i = Some "update" →
                 ∀ e, s3_etag i = Some e → JS.truthy_str e = true →
                      _cache (cs_pub (cache_transform X st file))
                      = JS.assign (_cache (cs_pub st)) (s3_path i) e).
  { intros Hst e He Ht.
    apply (cache_transform_assign X st file i e Hs3 Hp); auto;
      unfold state_is; destruct Hst as [-> | ->]; reflexivity. }
  split; [|split].
  - intros Hst. apply (cache_transform_delete X st file i Hs3 Hp).
    unfold state_is. rewrite Hst. reflexivity.
  - intros Hst. split.
    + intros e He Ht. split; [exact (Hset Hst e He Ht)|].
      intros Hproto. rewrite (Hset Hst e He Ht).
      apply assign_insert, Hproto.
    + intros cache headers options client file0 buf Hc Hs Hout Hproto.
      destruct (publish_emitted_written X cache headers options client file0
                  buf file i Hc Hs Hout Hs3 Hst) as [He Hk].
      rewrite (Hset Hst _ He (fingerprint_truthy X buf)), Hk.
      apply assign_insert, Hproto.
  - intros Hst. apply (cache_transform_hit X st file i Hs3).
    unfold state_is. rewrite Hst. reflexivity.
Qed.

Lemma X29_cache_entries_witness :
  _cache (cs_pub (cache_transform Sample.X (cache_start Sample.pub)
                    Sample.a_txt_created))
  = Sample.cache_hi
  ∧ _cache (cs_pub (cache_transform Sample.X
                      (cache_start (mkPublisher ".awspublish-bucket"
                                                Sample.cache_hi))
                      (deleteFile "a.txt")))
    = delete "a.txt" Sample.cache_hi.
Proof.
  split.
  - edestruct (X29_cache_entries Sample.X (cache_start Sample.pub)
                 Sample.a_txt_created) as (_ & Hset & _);
      [reflexivity | reflexivity |].
    destruct Hset as [_ Hpub]; [left; reflexivity|].
    rewrite (Hpub ∅ Sample.acl Sample.defaults Sample.empty_bucket
                  Sample.a_txt Sample.hi)
      by first [reflexivity | discriminate].
    reflexivity.
  - edestruct (X29_cache_entries Sample.X
                 (cache_start (mkPublisher ".awspublish-bucket" Sample.cache_hi))
                 (deleteFile "a.txt")) as (Hdel & _);
      [reflexivity | reflexivity |].
    exact (Hdel eq_refl).
Defined.

(** ** Remote keys *)

Lemma slashes_length (s : string) :
  String.length (JS.slashes s) = String.length s.
Proof. induction s as [|c r IH]; simpl; [reflexivity | now rewrite IH]. Qed.

Lemma slashes_no_backslash (s : string) :
  occurs JS.backslash (JS.slashes s) = false.
Proof.
  induction s as [|c r IH]; simpl; [reflexivity|].
  rewrite IH, orb_false_r.
  destruct (Ascii.eqb c JS.backslash) eqn:E; [reflexivity | exact E].
Qed.

Lemma slashes_id (s : string) :
  occurs JS.backslash s = false → JS.slashes s = s.
Proof.
  induction s as [|c r IH]; simpl; [reflexivity|].
  intros [Hc Hr]%orb_false_iff. rewrite Hc, (IH Hr). reflexivity.
Qed.

(** X1.  [initFile] leaves a file that has its [s3] record as it is, and
    running it twice is running it once.  On a file without the record,
    the key it computes is the relative path with every backslash turned
    into a slash: it has the length of the relative path, no backslash
    is left in it, and a relative path without backslashes is its own
    key. *)
Theorem X1_initFile_key (file : File) :
  (is_Some (s3 file) → initFile file = file)
  ∧ initFile (initFile file) = initFile file
  ∧ (s3 file = None →
     s3 (initFile file)
     = Some (mkS3 (JS.slashes (relative file)) [] None None None)
     ∧ String.length (key_of (initFile file)) = String.length (relative file)
     ∧ occurs JS.backslash (key_of (initFile file)) = false
     ∧ (occurs JS.backslash (relative file) = false →
        key_of (initFile file) = relative file)).
Proof.
  split; [|split].
  - intros [i Hi]. destruct file as [p r u c s]. simpl in Hi. subst s.
    reflexivity.
  - reflexivity.
  - intros Hnone. unfold initFile, key_of, s3_of. simpl. rewrite Hnone. simpl.
    split; [reflexivity|]. split; [apply slashes_length|].
    split; [apply slashes_no_backslash | apply slashes_id].
Qed.

Lemma X1_initFile_key_witness :
  key_of (initFile Sample2.win) = "css/a.css"
  ∧ initFile Sample.a_txt_created = Sample.a_txt_created.
Proof.
  destruct (X1_initFile_key Sample2.win) as (_ & _ & Hfresh).
  destruct (Hfresh eq_refl) as (Hs3 & _).
  destruct (X1_initFile_key Sample.a_txt_created) as (Hkeep & _).
  split; [|apply Hkeep; eexists; reflexivity].
  unfold key_of, s3_of. rewrite Hs3. reflexivity.
Defined.

(** ** Content types *)

Lemma or_else_truthy (o : option string) (d : string) :
  JS.truthy_str d = true → JS.truthy_str (JS.or_else o d) = true.
Proof.
  intros Hd. unfold JS.or_else. destruct o as [s|]; [|exact Hd].
  destruct (JS.truthy_str s) eqn:E; [exact E | exact Hd].
Qed.

Lemma append_truthy (a b : string) :
  JS.truthy_str a = true → JS.truthy_str (a +:+ b) = true.
Proof. destruct a; [discriminate | reflexivity]. Qed.

(** X2.  [getContentType] never returns the empty string; when the mime
    table does not know the path and gives no charset for the default
    type, it returns [application/octet-stream]; and the path it looks
    up is [unzipPath] whenever that is set and not empty. *)
Theorem X2_content_type_never_empty (X : Externals) (file : File) :
  JS.truthy_str (getContentType X file) = true
  ∧ (mime_lookup X (JS.or_else (unzipPath file) (path file)) = None →
     mime_charset X "application/octet-stream" = None →
     getContentType X file = "application/octet-stream")
  ∧ (∀ u, unzipPath file = Some u → JS.truthy_str u = true →
          getContentType X file
          = getContentType X (mkFile u (relative file) None (contents file)
                                     (s3 file))).
Proof.
  split; [|split].
  - unfold getContentType.
    set (mimeType := JS.or_else _ "application/octet-stream").
    assert (JS.truthy_str mimeType = true) as Hm
      by (apply or_else_truthy; reflexivity).
    destruct (JS.truthy_ostr (mime_charset X mimeType));
      [apply append_truthy|]; exact Hm.
  - intros Hl Hc. unfold getContentType. rewrite Hl. simpl. rewrite Hc.
    reflexivity.
  - intros u Hu Ht. unfold getContentType. rewrite Hu. simpl. rewrite Ht.
    reflexivity.
Qed.

Lemma X2_content_type_never_empty_witness :
  getContentType Sample.X Sample2.win = "application/octet-stream"
  ∧ getContentType Sample.X Sample2.a_txt_gz = "text/plain; charset=utf-8".
Proof.
  destruct (X2_content_type_never_empty Sample.X Sample2.win) as (_ & Hd & _).
  destruct (X2_content_type_never_empty Sample.X Sample2.a_txt_gz)
    as (_ & _ & Hu).
  split; [apply Hd; reflexivity|].
  rewrite (Hu "/src/a.txt") by reflexivity. reflexivity.
Defined.

(** ** Request parameters *)

Lemma toAwsParams_fold (X : Externals) (headers params : JS.Obj) :
  fold_left
    (fun params hv =>
       let '(header, v) := hv in
       if String.eqb header "x-amz-acl" then JS.set params "ACL" v
       else if String.eqb header "Content-MD5"
            then JS.set params "ContentMD5" v
            else JS.set params (pascalCase X header) v)
    headers params
  = fold_left (fun params hv => JS.set params (fst hv) (snd hv))
              ((fun hv => (param_name X (fst hv), snd hv)) <$> headers) params.
Proof.
  revert params. induction headers as [|[h v] headers IH]; intros params;
    simpl; [reflexivity|].
  rewrite IH. unfold param_name.
  destruct (String.eqb h "x-amz-acl"); [reflexivity|].
  destruct (String.eqb h "Content-MD5"); reflexivity.
Qed.

(** X3.  Whatever the headers of the file, and whatever names they are
    passed under, the request [toAwsParams] builds has the remote key of
    the file as its [Key] and, for a buffer file, the contents as its
    [Body]. *)
Theorem X3_params_key_and_body (X : Externals) (file : File) (i : S3Info) :
  JS.get (toAwsParams X file i) "Key" = Some (JS.VStr (s3_path i))
  ∧ (∀ buf, contents file = CBuffer buf →
            JS.get (toAwsParams X file i) "Body" = Some (JS.VBuf buf)).
Proof.
  unfold toAwsParams. split.
  - destruct (contents file); rewrite ?get_set_ne by discriminate;
      apply get_set_eq.
  - intros buf ->. apply get_set_eq.
Qed.

Lemma X3_params_key_and_body_witness :
  JS.get (toAwsParams Sample.X Sample.a_txt
            (mkS3 "a.txt" [("Key", JS.VStr "other"); ("Body", JS.VStr "x")]
                  None None None)) "Body"
  = Some (JS.VBuf Sample.hi).
Proof.
  destruct (X3_params_key_and_body Sample.X Sample.a_txt
              (mkS3 "a.txt" [("Key", JS.VStr "other"); ("Body", JS.VStr "x")]
                    None None None)) as [_ Hbody].
  apply Hbody. reflexivity.
Defined.

(** X4.  When no two headers of the file are passed under the same
    name, every header reaches the request under its name with its
    value: [x-amz-acl] as [ACL], [Content-MD5] as [ContentMD5], any other
    as its pascal-case form; a header passed as [Key] or [Body] is the
    exception. *)
Theorem X4_params_carry_headers (X : Externals) (file : File) (i : S3Info)
    (header : string) (v : JS.Val) :
  NoDup ((fun hv => param_name X (fst hv)) <$> s3_headers i) →
  (header, v) ∈ s3_headers i →
  param_name X header ≠ "Key" →
  param_name X header ≠ "Body" →
  JS.get (toAwsParams X file i) (param_name X header) = Some v.
Proof.
  intros Hnd Hin Hkey Hbody. unfold toAwsParams.
  rewrite toAwsParams_fold.
  assert (JS.get
            (JS.set
               (fold_left (fun params hv => JS.set params (fst hv) (snd hv))
                  ((fun hv => (param_name X (fst hv), snd hv)) <$> s3_headers i)
                  [])
               "Key" (JS.VStr (s3_path i)))
            (param_name X header) = Some v) as Hget.
  { rewrite get_set_ne by congruence.
    apply get_merge_given.
    - rewrite <- list_fmap_compose. exact Hnd.
    - apply (list_elem_of_fmap_2 (fun hv => (param_name X (fst hv), snd hv))
               _ (header, v)). exact Hin. }
  destruct (contents file); [exact Hget | exact Hget |].
  rewrite get_set_ne by congruence. exact Hget.
Qed.

Lemma X4_params_carry_headers_witness :
  JS.get (toAwsParams Sample.X Sample.a_txt
            (mkS3 "a.txt" Sample.a_txt_headers None None None)) "ACL"
  = Some (JS.VStr "public-read").
Proof.
  apply (X4_params_carry_headers Sample.X Sample.a_txt
           (mkS3 "a.txt" Sample.a_txt_headers None None None) "x-amz-acl").
  - apply (bool_decide_unpack _). vm_compute. exact I.
  - do 2 apply list_elem_of_further. apply list_elem_of_here.
  - discriminate.
  - discriminate.
Defined.

(** ** Arguments of [publish] *)

(** X5.  [publish] adds [x-amz-acl: public-read] to the headers it was
    given exactly when they hold no (non-empty) [x-amz-acl] and [noAcl]
    is off, and changes no other header; otherwise the headers are those
    given.  Missing options are all off. *)
Theorem X5_default_acl (headers : option JS.Obj) (options : option Options) :
  (JS.truthy (JS.get (default [] headers) "x-amz-acl") = false →
   noAcl (snd (publish_args headers options)) = false →
   JS.get (fst (publish_args headers options)) "x-amz-acl"
   = Some (JS.VStr "public-read")
   ∧ ∀ k, k ≠ "x-amz-acl" →
          JS.get (fst (publish_args headers options)) k
          = JS.get (default [] headers) k)
  ∧ (JS.truthy (JS.get (default [] headers) "x-amz-acl") = true
     ∨ noAcl (snd (publish_args headers options)) = true →
     fst (publish_args headers options) = default [] headers)
  ∧ snd (publish_args headers options)
    = default (mkOptions false false false false None) options.
Proof.
  unfold publish_args.
  replace (match headers with Some h => h | None => [] end)
    with (default [] headers) by (destruct headers; reflexivity).
  replace (match options with
           | Some o => o
           | None => mkOptions false false false false None
           end)
    with (default (mkOptions false false false false None) options)
    by (destruct options; reflexivity).
  simpl. split; [|split; [|reflexivity]].
  - intros -> ->. simpl. split; [apply get_set_eq|].
    intros k Hk. apply get_set_ne. congruence.
  - intros [-> | ->]; simpl; rewrite ?andb_false_r; reflexivity.
Qed.

Lemma X5_default_acl_witness :
  fst (publish_args None None) = Sample.acl
  ∧ fst (publish_args (Some [("x-amz-acl", JS.VStr "private")]) None)
    = [("x-amz-acl", JS.VStr "private")].
Proof.
  destruct (X5_default_acl (Some [("x-amz-acl", JS.VStr "private")]) None)
    as (_ & Hkeep & _).
  destruct (X5_default_acl None None) as (Hadd & _).
  destruct Hadd as [_ _]; [reflexivity | reflexivity |].
  split; [reflexivity|]. apply Hkeep. left. reflexivity.
Defined.

(** ** Strings *)

Lemma substring_all (s : string) : String.substring 0 (String.length s) s = s.
Proof. induction s as [|c r IH]; simpl; [reflexivity | now rewrite IH]. Qed.

Lemma substring_split (s : string) (k : nat) :
  (k <= String.length s)%nat →
  String.substring 0 k s
  +:+ String.substring k (String.length s - k) s = s.
Proof.
  revert k. induction s as [|c r IH]; intros k Hk.
  - simpl in Hk. assert (k = 0%nat) as -> by lia. reflexivity.
  - destruct k as [|k].
    + change (String.substring 0 0 (String c r)) with EmptyString.
      rewrite Nat.sub_0_r. apply (substring_all (String c r)).
    + simpl in Hk.
      transitivity
        (String c (String.substring 0 k r
                   +:+ String.substring k (String.length r - k) r));
        [reflexivity | f_equal; apply IH; lia].
Qed.

(** When [s] ends with [suffix], what [substr] keeps of it and the
    suffix make up [s]. *)
Lemma endsWith_strip (s suffix : string) :
  JS.endsWith s suffix = true →
  JS.substr0 s (String.length s - String.length suffix) +:+ suffix = s.
Proof.
  unfold JS.endsWith, JS.substr0.
  intros [Hle Heq]%andb_true_iff.
  apply Nat.leb_le in Hle. apply String.eqb_eq in Heq.
  assert (String.length s - String.length suffix <= String.length s)%nat
    as Hk by lia.
  pose proof (substring_split s _ Hk) as H.
  replace (String.length s - (String.length s - String.length suffix))%nat
    with (String.length suffix) in H by lia.
  rewrite Heq in H. exact H.
Qed.

(** ** Deriving the headers *)

Lemma compress_key_get (fi : File * S3Info) (kv : string * string) (k : string) :
  k ≠ "Content-Encoding" →
  JS.get (s3_headers (snd (compress_key fi kv))) k
  = JS.get (s3_headers (snd fi)) k.
Proof.
  intros Hk. destruct fi as [f i], kv as [key enc]. unfold compress_key.
  destruct (negb (JS.truthy_ostr (unzipPath f)) && JS.endsWith (path f) key);
    [|reflexivity].
  destruct (negb (JS.truthy (JS.get (s3_headers i) "Content-Encoding")));
    [|reflexivity].
  simpl. apply get_set_ne. congruence.
Qed.

Lemma compress_fold_get (c : list (string * string)) (fi : File * S3Info)
    (k : string) :
  k ≠ "Content-Encoding" →
  JS.get (s3_headers (snd (fold_left compress_key c fi))) k
  = JS.get (s3_headers (snd fi)) k.
Proof.
  intros Hk. revert fi. induction c as [|kv c IH]; intros fi; simpl;
    [reflexivity|].
  rewrite IH. apply compress_key_get, Hk.
Qed.

Lemma compress_fold_miss (c : list (string * string)) (fi : File * S3Info) :
  Forall (λ kv, JS.endsWith (path (fst fi)) (fst kv) = false) c →
  fold_left compress_key c fi = fi.
Proof.
  induction 1 as [|[key enc] c Hmiss _ IH]; simpl; [reflexivity|].
  destruct fi as [f i]. simpl in *. rewrite Hmiss, andb_false_r. exact IH.
Qed.

(** Once [unzipPath] is set, no suffix of [options.compress] applies. *)
Lemma compress_fold_noop (c : list (string * string)) (fi : File * S3Info) :
  JS.truthy_ostr (unzipPath (fst fi)) = true →
  fold_left compress_key c fi = fi.
Proof.
  intros Hu. induction c as [|[key enc] c IH]; simpl; [reflexivity|].
  destruct fi as [f i]. simpl in *. rewrite Hu. simpl. exact IH.
Qed.

(** X12.  [options.compress] has no effect on a file that arrives with
    [unzipPath] set (as [gzip] leaves it) or with a [Content-Type] header:
    the headers derived are those derived without it. *)
Theorem X12_compress_ignored (X : Externals) (headers : JS.Obj)
    (options : Options) (buf : list byte) (file : File) (i : S3Info) :
  JS.truthy_ostr (unzipPath file) = true
  ∨ JS.truthy (JS.get (s3_headers i) "Content-Type") = true →
  add_headers X headers options buf (file, i)
  = add_headers X headers (without_compress options) buf (file, i).
Proof.
  intros Hcase. unfold add_headers. simpl.
  destruct (JS.truthy (JS.get (s3_headers i) "Content-Type")) eqn:Hct;
    [reflexivity|].
  destruct Hcase as [Hu | Hf]; [|discriminate].
  destruct (compress options) as [c|]; [|reflexivity].
  rewrite (compress_fold_noop c (file, i) Hu). reflexivity.
Qed.

Lemma X12_compress_ignored_witness :
  add_headers Sample.X Sample.acl Sample2.compressing Sample.hi
    (Sample2.typed, s3_of Sample2.typed)
  = add_headers Sample.X Sample.acl Sample.defaults Sample.hi
      (Sample2.typed, s3_of Sample2.typed)
  ∧ add_headers Sample.X Sample.acl Sample2.compressing Sample.hi
      (Sample2.a_txt_gz, s3_of Sample2.a_txt_gz)
    = add_headers Sample.X Sample.acl Sample.defaults Sample.hi
        (Sample2.a_txt_gz, s3_of Sample2.a_txt_gz).
Proof.
  split.
  - apply (X12_compress_ignored Sample.X Sample.acl Sample2.compressing).
    right. reflexivity.
  - apply (X12_compress_ignored Sample.X Sample.acl Sample2.compressing).
    left. reflexivity.
Defined.

Lemma add_headers_steps (X : Externals) (headers : JS.Obj) (options : Options)
    (buf : list byte) (fi : File * S3Info) :
  add_headers X headers options buf fi
  = (fst (content_type_step X options fi),
     length_and_given headers buf (snd (content_type_step X options fi))).
Proof.
  unfold add_headers, content_type_step, length_and_given.
  destruct (negb (JS.truthy (JS.get (s3_headers (snd fi)) "Content-Type"))).
  - destruct (match compress options with
              | Some c => fold_left compress_key c fi
              | None => fi
              end) as [f i].
    reflexivity.
  - destruct fi as [f i]. reflexivity.
Qed.

Lemma length_and_given_get (headers : JS.Obj) (buf : list byte) (i : S3Info)
    (k : string) :
  k ∉ headers.*1 →
  JS.get (s3_headers (length_and_given headers buf i)) k
  = if String.eqb k "Content-Length"
       && negb (JS.truthy (JS.get (s3_headers i) "Content-Length"))
    then Some (JS.VNum (Z.of_nat (length buf)))
    else JS.get (s3_headers i) k.
Proof.
  intros Hfree. unfold length_and_given. simpl.
  rewrite (get_merge_other _ _ _ Hfree).
  destruct (negb (JS.truthy (JS.get (s3_headers i) "Content-Length")));
    [|rewrite andb_false_r; reflexivity].
  rewrite andb_true_r. simpl.
  destruct (String.eqb k "Content-Length") eqn:E.
  - apply String.eqb_eq in E as ->. apply get_set_eq.
  - apply String.eqb_neq in E. apply get_set_ne. congruence.
Qed.

(** X11.  With [options.compress], a file without [Content-Type] and
    without [unzipPath] whose path ends with a listed suffix gets the
    first such suffix in the list stripped: [unzipPath] plus the suffix
    is the path, the path itself stays, the content type is that of the
    stripped name, and the encoding listed for the suffix becomes the
    [Content-Encoding] unless one was set; later suffixes do not apply.
    (The stripped name is taken not to be empty.) *)
Theorem X11_compress_first_suffix (X : Externals) (headers : JS.Obj)
    (options : Options) (buf : list byte) (file f : File) (i : S3Info)
    (pre post : list (string * string)) (key enc u : string) :
  compress options = Some (pre ++ (key, enc) :: post)%list →
  Forall (λ kv, JS.endsWith (path file) (fst kv) = false) pre →
  JS.endsWith (path file) key = true →
  JS.truthy_ostr (unzipPath file) = false →
  JS.truthy (JS.get (s3_headers (s3_of file)) "Content-Type") = false →
  u = JS.substr0 (path file) (String.length (path file) - String.length key) →
  JS.truthy_str u = true →
  add_headers X headers options buf (file, s3_of file) = (f, i) →
  f = with_unzipPath file u
  ∧ u +:+ key = path file
  ∧ path f = path file
  ∧ ("Content-Type" ∉ headers.*1 →
     JS.get (s3_headers i) "Content-Type"
     = Some (JS.VStr (getContentType X (with_unzipPath file u))))
  ∧ ("Content-Encoding" ∉ headers.*1 →
     JS.truthy (JS.get (s3_headers (s3_of file)) "Content-Encoding") = false →
     JS.get (s3_headers i) "Content-Encoding" = Some (JS.VStr enc)).
Proof.
  intros Hc Hpre Hends Hun Hct -> Hu. rewrite add_headers_steps.
  set (u := JS.substr0 (path file) _) in *.
  assert (Hfold : fold_left compress_key (pre ++ (key, enc) :: post)
                    (file, s3_of file)
                  = compress_key (file, s3_of file) (key, enc)).
  { rewrite fold_left_app.
    rewrite (compress_fold_miss pre (file, s3_of file) Hpre). simpl fold_left.
    apply compress_fold_noop. unfold compress_key. rewrite Hun, Hends. simpl.
    destruct (negb _); exact Hu. }
  assert (Hkey : fst (compress_key (file, s3_of file) (key, enc))
                 = with_unzipPath file u
                 ∧ (JS.truthy (JS.get (s3_headers (s3_of file))
                                 "Content-Encoding") = false →
                    JS.get (s3_headers
                              (snd (compress_key (file, s3_of file) (key, enc))))
                           "Content-Encoding" = Some (JS.VStr enc))).
  { unfold compress_key. rewrite Hun, Hends. simpl.
    destruct (JS.truthy (JS.get (s3_headers (s3_of file)) "Content-Encoding"));
      simpl; (split; [reflexivity|]); [discriminate|].
    intros _. apply get_set_eq. }
  destruct Hkey as [Hfile Hce].
  unfold content_type_step. cbn [fst snd]. rewrite Hct, Hc, Hfold.
  cbn [negb fst snd]. rewrite Hfile.
  intros [= <- <-].
  split; [reflexivity|]. split; [apply endsWith_strip, Hends|].
  split; [reflexivity|].
  split.
  - intros Hfree. rewrite (length_and_given_get _ _ _ _ Hfree). simpl.
    apply get_set_eq.
  - intros Hfree Hnone. rewrite (length_and_given_get _ _ _ _ Hfree). simpl.
    rewrite get_set_ne by discriminate. apply Hce, Hnone.
Qed.

Lemma X11_compress_first_suffix_witness :
  ∃ f i, add_headers Sample.X Sample.acl Sample2.compressing Sample.hi
           (Sample2.named_gz, s3_of Sample2.named_gz) = (f, i)
         ∧ unzipPath f = Some "/src/a.txt"
         ∧ JS.get (s3_headers i) "Content-Type"
           = Some (JS.VStr "text/plain; charset=utf-8")
         ∧ JS.get (s3_headers i) "Content-Encoding" = Some (JS.VStr "gzip").
Proof.
  destruct (add_headers Sample.X Sample.acl Sample2.compressing Sample.hi
              (Sample2.named_gz, s3_of Sample2.named_gz)) as [f i] eqn:E.
  exists f, i.
  destruct (X11_compress_first_suffix Sample.X Sample.acl Sample2.compressing
              Sample.hi Sample2.named_gz f i [] [] ".gz" "gzip" "/src/a.txt")
    as (-> & _ & _ & Hct & Hce);
    [reflexivity | constructor | reflexivity | reflexivity | reflexivity
    | reflexivity | reflexivity | exact E |].
  assert (Hfree : ∀ k, k ≠ "x-amz-acl" → k ∉ Sample.acl.*1).
  { intros k Hk Hin. apply list_elem_of_In in Hin. simpl in Hin.
    destruct Hin as [Hin|[]]. congruence. }
  split; [reflexivity|]. split; [reflexivity|].
  split.
  - rewrite Hct; [reflexivity | apply Hfree; discriminate].
  - apply Hce; [apply Hfree; discriminate | reflexivity].
Defined.

Lemma content_type_step_get (X : Externals) (options : Options)
    (fi : File * S3Info) (k : string) :
  k ≠ "Content-Type" → k ≠ "Content-Encoding" →
  JS.get (s3_headers (snd (content_type_step X options fi))) k
  = JS.get (s3_headers (snd fi)) k.
Proof.
  intros Hct Hce. unfold content_type_step.
  destruct (negb (JS.truthy (JS.get (s3_headers (snd fi)) "Content-Type")));
    [|reflexivity].
  cbn [snd s3_headers set_headers]. rewrite get_set_ne by congruence.
  destruct (compress options) as [c|]; [|reflexivity].
  apply compress_fold_get, Hce.
Qed.

(** X10.  Headers set upstream win over derived ones: a file that
    arrives with a [Content-Type] keeps it, its [Content-Encoding] and
    its [unzipPath] as they are, and one that arrives with a
    [Content-Length] keeps it, unless the headers given to [publish]
    name them. *)
Theorem X10_upstream_headers_kept (X : Externals) (headers : JS.Obj)
    (options : Options) (buf : list byte) (file f : File) (i : S3Info) :
  add_headers X headers options buf (file, s3_of file) = (f, i) →
  (JS.truthy (JS.get (s3_headers (s3_of file)) "Content-Type") = true →
   f = file
   ∧ ("Content-Type" ∉ headers.*1 →
      JS.get (s3_headers i) "Content-Type"
      = JS.get (s3_headers (s3_of file)) "Content-Type")
   ∧ ("Content-Encoding" ∉ headers.*1 →
      JS.get (s3_headers i) "Content-Encoding"
      = JS.get (s3_headers (s3_of file)) "Content-Encoding"))
  ∧ (JS.truthy (JS.get (s3_headers (s3_of file)) "Content-Length") = true →
     "Content-Length" ∉ headers.*1 →
     JS.get (s3_headers i) "Content-Length"
     = JS.get (s3_headers (s3_of file)) "Content-Length").
Proof.
  rewrite add_headers_steps. intros [= <- <-]. split.
  - intros Hct. unfold content_type_step. cbn [snd]. rewrite Hct.
    cbn [negb fst snd]. split; [reflexivity|].
    split; intros Hfree; rewrite (length_and_given_get _ _ _ _ Hfree);
      reflexivity.
  - intros Hcl Hfree. rewrite (length_and_given_get _ _ _ _ Hfree).
    rewrite (content_type_step_get X options (file, s3_of file))
      by discriminate.
    cbn [snd]. rewrite Hcl. reflexivity.
Qed.

Lemma X10_upstream_headers_kept_witness :
  ∃ f i, add_headers Sample.X Sample.acl Sample2.compressing Sample.hi
           (Sample2.typed, s3_of Sample2.typed) = (f, i)
         ∧ f = Sample2.typed
         ∧ JS.get (s3_headers i) "Content-Type" = Some (JS.VStr "text/html")
         ∧ JS.get (s3_headers i) "Content-Encoding" = None.
Proof.
  destruct (add_headers Sample.X Sample.acl Sample2.compressing Sample.hi
              (Sample2.typed, s3_of Sample2.typed)) as [f i] eqn:E.
  exists f, i.
  destruct (X10_upstream_headers_kept Sample.X Sample.acl Sample2.compressing
              Sample.hi Sample2.typed f i E) as [Hkept _].
  destruct (Hkept eq_refl) as (Hf & Hct & Hce).
  assert (Hfree : ∀ k, k ≠ "x-amz-acl" → k ∉ Sample.acl.*1).
  { intros k Hk Hin. apply list_elem_of_In in Hin. simpl in Hin.
    destruct Hin as [Hin|[]]. congruence. }
  split; [reflexivity|]. split; [exact Hf|].
  split; [rewrite Hct | rewrite Hce];
    first [reflexivity | apply Hfree; discriminate].
Defined.

(** X13.  What [publish] derives: a file without (non-empty)
    [Content-Type] gets that of [getContentType], one without
    [Content-Length] gets the byte length of its contents, unless the
    headers given to [publish] name them; and no header other than
    these two, [Content-Encoding] and those given to [publish] is
    touched. *)
Theorem X13_derived_headers (X : Externals) (headers : JS.Obj)
    (options : Options) (buf : list byte) (file f : File) (i : S3Info) :
  add_headers X headers options buf (file, s3_of file) = (f, i) →
  (JS.truthy (JS.get (s3_headers (s3_of file)) "Content-Type") = false →
   "Content-Type" ∉ headers.*1 →
   JS.get (s3_headers i) "Content-Type"
   = Some (JS.VStr (getContentType X f)))
  ∧ (JS.truthy (JS.get (s3_headers (s3_of file)) "Content-Length") = false →
     "Content-Length" ∉ headers.*1 →
     JS.get (s3_headers i) "Content-Length"
     = Some (JS.VNum (Z.of_nat (length buf))))
  ∧ (∀ k, k ∉ headers.*1 → k ≠ "Content-Type" → k ≠ "Content-Length" →
          k ≠ "Content-Encoding" →
          JS.get (s3_headers i) k = JS.get (s3_headers (s3_of file)) k).
Proof.
  rewrite add_headers_steps. intros [= <- <-]. split; [|split].
  - intros Hct Hfree. rewrite (length_and_given_get _ _ _ _ Hfree).
    unfold content_type_step. cbn [snd]. rewrite Hct.
    cbn [negb fst snd String.eqb andb set_headers s3_headers].
    apply get_set_eq.
  - intros Hcl Hfree. rewrite (length_and_given_get _ _ _ _ Hfree).
    rewrite (content_type_step_get X options (file, s3_of file))
      by discriminate.
    cbn [snd]. rewrite Hcl. reflexivity.
  - intros k Hfree Hct Hcl Hce. rewrite (length_and_given_get _ _ _ _ Hfree).
    apply String.eqb_neq in Hcl. rewrite Hcl. cbn [andb].
    apply (content_type_step_get X options (file, s3_of file)); assumption.
Qed.

Lemma X13_derived_headers_witness :
  ∃ f i, add_headers Sample.X Sample.acl Sample.defaults Sample.hi
           (Sample.a_txt, s3_of Sample.a_txt) = (f, i)
         ∧ JS.get (s3_headers i) "Content-Length" = Some (JS.VNum 2)
         ∧ JS.get (s3_headers i) "Content-Type"
           = Some (JS.VStr "text/plain; charset=utf-8").
Proof.
  destruct (add_headers Sample.X Sample.acl Sample.defaults Sample.hi
              (Sample.a_txt, s3_of Sample.a_txt)) as [f i] eqn:E.
  exists f, i.
  destruct (X13_derived_headers Sample.X Sample.acl Sample.defaults
              Sample.hi Sample.a_txt f i E) as (Hct & Hcl & _).
  assert (Hfree : ∀ k, k ≠ "x-amz-acl" → k ∉ Sample.acl.*1).
  { intros k Hk Hin. apply list_elem_of_In in Hin. simpl in Hin.
    destruct Hin as [Hin|[]]. congruence. }
  split; [reflexivity|]. split.
  - apply Hcl; [reflexivity | apply Hfree; discriminate].
  - rewrite Hct; [|reflexivity | apply Hfree; discriminate].
    injection E as <- _. reflexivity.
Defined.

(** ** Simulated runs and the decision to write *)

(** X6.  In simulate mode the transform never calls the client: its
    outcome is the same for any two clients and its trace is empty.  A
    buffer file that is neither marked [delete] nor a cache hit is
    emitted with the derived headers, its state, fingerprint and date
    left as they came. *)
Theorem X6_simulate_never_calls (X : Externals) (cache : gmap string string)
    (headers : JS.Obj) (options : Options) (client client' : S3Client)
    (file : File) :
  simulate options = true →
  publish_transform X cache headers options client file
  = publish_transform X cache headers options client' file
  ∧ out_calls (publish_transform X cache headers options client file) = []
  ∧ (∀ buf f i,
       contents file = CBuffer buf →
       state_is (s3_of file) "delete" = false →
       negb (force options)
       && bool_decide (cache !! key_of file = Some (fingerprint X buf)) = false →
       add_headers X headers options buf (file, s3_of file) = (f, i) →
       publish_transform X cache headers options client file
       = mkOutcome (Some (with_s3 f i)) None []
       ∧ s3_state i = s3_state (s3_of file)
       ∧ s3_etag i = s3_etag (s3_of file)
       ∧ s3_date i = s3_date (s3_of file)).
Proof.
  intros Hs. unfold publish_transform.
  destruct (contents file) as [| |buf0] eqn:Hc;
    [split; [reflexivity|]; split; [reflexivity|];
     intros buf f i Hb; discriminate Hb
    |split; [reflexivity|]; split; [reflexivity|];
     intros buf f i Hb; discriminate Hb|].
  fold (fingerprint X buf0). fold (key_of file).
  destruct (state_is (s3_of file) "delete") eqn:Hd;
    [split; [reflexivity|]; split; [reflexivity|];
     intros buf f i _ Hb; discriminate Hb|].
  destruct (negb (force options) && bool_decide _) eqn:Hh;
    [split; [reflexivity|]; split; [reflexivity|];
     intros buf f i [= <-] _ Hb; rewrite Hh in Hb; discriminate Hb|].
  pose proof (add_headers_keeps X headers options buf0 (file, s3_of file)) as K.
  destruct (add_headers X headers options buf0 (file, s3_of file))
    as [f0 i0] eqn:Ea.
  simpl in K. destruct K as (_ & _ & K3 & K4 & K5).
  rewrite Hs. split; [reflexivity|]. split; [reflexivity|].
  intros buf f i [= <-] _ _ Ha. rewrite Ea in Ha. injection Ha as <- <-.
  split; [reflexivity|]. split; [exact K3|]. split; [exact K4 | exact K5].
Qed.

Lemma X6_simulate_never_calls_witness :
  publish_transform Sample.X ∅ Sample.acl Sample2.simulating Sample.failing
    Sample.a_txt
  = mkOutcome
      (Some (with_s3 Sample.a_txt
               (mkS3 "a.txt" Sample.a_txt_headers None None None)))
      None [].
Proof.
  destruct (X6_simulate_never_calls Sample.X ∅ Sample.acl Sample2.simulating
              Sample.failing Sample.empty_bucket Sample.a_txt eq_refl)
    as (_ & _ & Hemit).
  destruct (Hemit Sample.hi Sample.a_txt
              (mkS3 "a.txt" Sample.a_txt_headers None None None))
    as [-> _]; reflexivity.
Defined.

(** X8.  Without force mode, a file whose remote object carries the
    fingerprint of its contents is marked [skip] and not written: the
    query is the only call, and the file is emitted with the fingerprint
    and the date of the remote object. *)
Theorem X8_unchanged_remote_skips (X : Externals) (cache : gmap string string)
    (headers : JS.Obj) (options : Options) (client : S3Client)
    (file : File) (buf : list byte) (f : File) (i : S3Info) (res : HeadData) :
  force options = false →
  simulate options = false →
  contents file = CBuffer buf →
  state_is (s3_of file) "delete" = false →
  cache !! key_of file ≠ Some (fingerprint X buf) →
  add_headers X headers options buf (file, s3_of file) = (f, i) →
  headObject client (key_of file) = inr res →
  ETag res = Some (fingerprint X buf) →
  publish_transform X cache headers options client file
  = mkOutcome
      (Some (with_s3 f (set_date (set_etag (set_state i "skip")
                                            (fingerprint X buf))
                                 (DateOf (LastModified res)))))
      None [HeadObject (key_of file)].
Proof.
  intros Hf Hs Hc Hd Hmiss Ha He Hsame.
  destruct (publish_queries X cache headers options client file buf f i
              Hc Hd) as [Hk ->]; auto.
  { rewrite bool_decide_eq_false_2 by exact Hmiss. apply andb_false_r. }
  rewrite He. unfold headObject_cb, head_decide. rewrite Hf, Hsame, Hk.
  rewrite bool_decide_eq_true_2 by reflexivity.
  rewrite orb_true_r. reflexivity.
Qed.

Lemma X8_unchanged_remote_skips_witness :
  out_state (publish_transform Sample.X ∅ Sample.acl Sample.defaults
               Sample2.same_content Sample.a_txt)
  = Some "skip"
  ∧ out_calls (publish_transform Sample.X ∅ Sample.acl Sample.defaults
                 Sample2.same_content Sample.a_txt)
    = [HeadObject "a.txt"].
Proof.
  rewrite (X8_unchanged_remote_skips Sample.X ∅ Sample.acl Sample.defaults
             Sample2.same_content Sample.a_txt Sample.hi Sample.a_txt
             (mkS3 "a.txt" Sample.a_txt_headers None None None)
             (mkHead (Some Sample.etag_hi) (Some "yesterday")));
    try reflexivity.
  - split; reflexivity.
  - rewrite lookup_empty. discriminate.
Defined.

(** X9.  A file the query is made for is written when the remote object
    is absent or differs (or force mode is on), unless create-only mode
    finds an object: as an [update] when the answer has an [ETag], as a
    [create] when it has none.  The request is that of [toAwsParams] for
    the file in that state; when the write fails its error is raised and
    the file is not emitted, when it succeeds the file is emitted with
    the fingerprint and the current date. *)
Theorem X9_write_decision (X : Externals) (cache : gmap string string)
    (headers : JS.Obj) (options : Options) (client : S3Client)
    (file : File) (buf : list byte) (f : File) (i : S3Info) (res : HeadData)
    (written : S3Info) :
  simulate options = false →
  contents file = CBuffer buf →
  state_is (s3_of file) "delete" = false →
  negb (force options)
  && bool_decide (cache !! key_of file = Some (fingerprint X buf)) = false →
  add_headers X headers options buf (file, s3_of file) = (f, i) →
  headObject client (key_of file) = inr res →
  force options = true ∨ ETag res ≠ Some (fingerprint X buf) →
  createOnly options = false ∨ JS.truthy_ostr (ETag res) = false →
  written = set_state i (if JS.truthy_ostr (ETag res) then "update"
                         else "create") →
  publish_transform X cache headers options client file
  = match putObject client (toAwsParams X f written) with
    | Some e =>
        mkOutcome None (Some (AwsFailure e))
          [HeadObject (key_of file); PutObject (toAwsParams X f written)]
    | None =>
        mkOutcome
          (Some (with_s3 f (set_etag (set_date written DateNow)
                                     (fingerprint X buf))))
          None [HeadObject (key_of file); PutObject (toAwsParams X f written)]
    end.
Proof.
  intros Hs Hc Hd Hh Ha He Hdiff Hmay ->.
  destruct (publish_queries X cache headers options client file buf f i
              Hc Hd Hh Hs Ha) as [Hk ->].
  rewrite He. unfold headObject_cb, head_decide. rewrite Hk.
  assert (createOnly options && JS.truthy_ostr (ETag res) = false) as ->
    by (destruct Hmay as [-> | ->]; [reflexivity | apply andb_false_r]).
  assert (negb (force options)
          && bool_decide (ETag res = Some (fingerprint X buf)) = false) as ->.
  { destruct Hdiff as [-> | Hne]; [reflexivity|].
    rewrite bool_decide_eq_false_2 by exact Hne. apply andb_false_r. }
  simpl. destruct (putObject client _); reflexivity.
Qed.

Lemma X9_write_decision_witness :
  out_state (publish_transform Sample.X ∅ Sample.acl Sample.defaults
               Sample.other_content Sample.a_txt)
  = Some "update"
  ∧ out_state (publish_transform Sample.X Sample.cache_hi Sample.acl
                 Sample2.forcing Sample2.same_content Sample.a_txt)
    = Some "update".
Proof.
  split.
  - rewrite (X9_write_decision Sample.X ∅ Sample.acl Sample.defaults
               Sample.other_content Sample.a_txt Sample.hi Sample.a_txt
               (mkS3 "a.txt" Sample.a_txt_headers None None None)
               (mkHead (Some "other") (Some "yesterday"))
               (mkS3 "a.txt" Sample.a_txt_headers (Some "update") None None));
      try reflexivity.
    + right. discriminate.
    + left. reflexivity.
  - rewrite (X9_write_decision Sample.X Sample.cache_hi Sample.acl
               Sample2.forcing Sample2.same_content Sample.a_txt Sample.hi
               Sample.a_txt
               (mkS3 "a.txt" Sample.a_txt_headers None None None)
               (mkHead (Some Sample.etag_hi) (Some "yesterday"))
               (mkS3 "a.txt" Sample.a_txt_headers (Some "update") None None));
      try reflexivity.
    + left. reflexivity.
    + left. reflexivity.
Defined.

(** ** The gzip stream *)

Lemma append_empty (s : string) : s +:+ EmptyString = s.
Proof.
  induction s as [|c r IH]; [reflexivity|].
  transitivity (String c (r +:+ EmptyString)); [reflexivity|].
  rewrite IH. reflexivity.
Qed.

(** X14.  [gzip] emits a file exactly when the file has a buffer that
    zlib compresses, and raises an error exactly when the file has a
    stream or zlib fails; a file without contents is dropped without an
    error. *)
Theorem X14_gzip_outcomes (zlib : Zlib) (options : option GzipOptions)
    (file : File) :
  (is_Some (gz_file (gzip_transform zlib options file))
   ↔ ∃ original buf, contents file = CBuffer original
                     ∧ zlib original = inr buf)
  ∧ (is_Some (gz_error (gzip_transform zlib options file))
     ↔ contents file = CStream
       ∨ ∃ original msg, contents file = CBuffer original
                         ∧ zlib original = inl msg)
  ∧ (contents file = CNull →
     gzip_transform zlib options file = mkGzipOutcome None None).
Proof.
  unfold gzip_transform.
  destruct (contents file) as [| |original] eqn:Hc.
  - split; [|split; [|reflexivity]]; simpl; split.
    + intros [x Hx]. discriminate.
    + intros (o & b & Ho & _). discriminate.
    + intros [x Hx]. discriminate.
    + intros [Hs | (o & m & Ho & _)]; discriminate.
  - split; [|split; [|discriminate]]; simpl; split.
    + intros [x Hx]. discriminate.
    + intros (o & b & Ho & _). discriminate.
    + intros _. left. reflexivity.
    + intros _. eauto.
  - destruct (zlib original) as [msg|buf] eqn:Hz.
    + split; [|split; [|discriminate]]; simpl; split.
      * intros [x Hx]. discriminate.
      * intros (o & b & [= <-] & Hb). congruence.
      * intros _. right. eauto.
      * intros _. eauto.
    + assert (∃ f, (if gzip_smaller options
                       && (length original <=? length buf)%nat
                    then mkGzipOutcome (Some (with_s3 file (s3_of file))) None
                    else mkGzipOutcome
                           (Some (mkFile (path file +:+ gzip_ext options)
                                    (relative file +:+ gzip_ext options)
                                    (Some (path file)) (CBuffer buf)
                                    (Some (mkS3
                                       (s3_path (s3_of file)
                                          +:+ gzip_ext options)
                                       (JS.set (s3_headers (s3_of file))
                                          "Content-Encoding" (JS.VStr "gzip"))
                                       (s3_state (s3_of file))
                                       (s3_etag (s3_of file))
                                       (s3_date (s3_of file))))))
                           None)
                   = mkGzipOutcome (Some f) None) as [f ->]
        by (destruct (_ && _); eauto).
      split; [|split; [|discriminate]]; simpl; split.
      * intros _. eauto.
      * intros _. eauto.
      * intros [x Hx]. discriminate.
      * intros [Hs | (o & m & [= <-] & Hm)]; [discriminate | congruence].
Qed.

Lemma X14_gzip_outcomes_witness :
  gzip_transform Sample2.zlib (Some Sample2.gz) Sample.a_null
  = mkGzipOutcome None None
  ∧ is_Some (gz_file (gzip_transform Sample2.zlib (Some Sample2.gz)
                        Sample.a_txt)).
Proof.
  destruct (X14_gzip_outcomes Sample2.zlib (Some Sample2.gz) Sample.a_null)
    as (_ & _ & Hnull).
  destruct (X14_gzip_outcomes Sample2.zlib (Some Sample2.gz) Sample.a_txt)
    as (Hfile & _).
  split; [apply Hnull; reflexivity|].
  apply Hfile. exists Sample.hi, (x1f :: x8b :: Sample.hi).
  split; reflexivity.
Defined.

(** X15.  When [gzip] replaces the contents (it always does without
    [smaller], and with it when the compressed buffer is shorter), the
    emitted file has the compressed buffer, [Content-Encoding: gzip],
    the former path as [unzipPath], and the extension added to its path
    and to its remote key; all its other headers and its state stay.
    Without an extension the path and the key stay too. *)
Theorem X15_gzip_renames (zlib : Zlib) (options : option GzipOptions)
    (file : File) (original buf : list byte) :
  contents file = CBuffer original →
  zlib original = inr buf →
  gzip_smaller options = false ∨ (length buf < length original)%nat →
  ∃ f i, gzip_transform zlib options file = mkGzipOutcome (Some f) None
         ∧ s3 f = Some i
         ∧ contents f = CBuffer buf
         ∧ unzipPath f = Some (path file)
         ∧ path f = path file +:+ gzip_ext options
         ∧ key_of f = key_of file +:+ gzip_ext options
         ∧ JS.get (s3_headers i) "Content-Encoding" = Some (JS.VStr "gzip")
         ∧ (∀ k, k ≠ "Content-Encoding" →
                 JS.get (s3_headers i) k = JS.get (s3_headers (s3_of file)) k)
         ∧ s3_state i = s3_state (s3_of file)
         ∧ (gzip_ext options = EmptyString →
            path f = path file ∧ key_of f = key_of file).
Proof.
  intros Hc Hz Hrepl. unfold gzip_transform. rewrite Hc, Hz.
  assert (gzip_smaller options && (length original <=? length buf)%nat = false)
    as ->.
  { destruct Hrepl as [-> | Hlt]; [reflexivity|].
    apply andb_false_iff. right. apply Nat.leb_gt. exact Hlt. }
  eexists _, _. split; [reflexivity|]. split; [reflexivity|]. simpl.
  split; [reflexivity|]. split; [reflexivity|]. split; [reflexivity|].
  split; [reflexivity|]. split; [apply get_set_eq|].
  split; [intros k Hk; apply get_set_ne; congruence|].
  split; [reflexivity|].
  intros ->. rewrite !append_empty. split; reflexivity.
Qed.

Lemma X15_gzip_renames_witness :
  ∃ f, gzip_transform Sample2.zlib (Some Sample2.gz) Sample.a_txt
       = mkGzipOutcome (Some f) None
       ∧ key_of f = "a.txt.gz"
       ∧ unzipPath f = Some "/src/a.txt".
Proof.
  destruct (X15_gzip_renames Sample2.zlib (Some Sample2.gz) Sample.a_txt
              Sample.hi (x1f :: x8b :: Sample.hi) eq_refl eq_refl
              (or_introl eq_refl))
    as (f & i & Hg & _ & _ & Hu & _ & Hk & _).
  exists f. split; [exact Hg|]. split; [rewrite Hk; reflexivity | exact Hu].
Defined.

(** X16.  With [smaller], the contents [gzip] emits are never longer
    than those it received: either zlib's buffer, strictly shorter, or
    the file as [initFile] leaves it, with its contents, path, key and
    headers untouched. *)
Theorem X16_gzip_smaller_never_grows (zlib : Zlib)
    (options : option GzipOptions) (file f : File) (original : list byte) :
  gzip_smaller options = true →
  contents file = CBuffer original →
  gz_file (gzip_transform zlib options file) = Some f →
  ∃ out, contents f = CBuffer out
         ∧ (length out <= length original)%nat
         ∧ ((zlib original = inr out ∧ (length out < length original)%nat
             ∧ unzipPath f = Some (path file))
            ∨ (f = initFile file
               ∧ ∃ buf, zlib original = inr buf
                        ∧ (length original <= length buf)%nat)).
Proof.
  intros Hs Hc. unfold gzip_transform. rewrite Hc, Hs.
  destruct (zlib original) as [msg|buf]; [discriminate|]. simpl.
  destruct (length original <=? length buf)%nat eqn:Hle; intros [= <-]; simpl.
  - apply Nat.leb_le in Hle. exists original.
    split; [exact Hc|]. split; [lia|]. right. split; [reflexivity|]. eauto.
  - apply Nat.leb_gt in Hle. exists buf.
    split; [reflexivity|]. split; [lia|]. left. auto.
Qed.

Lemma X16_gzip_smaller_never_grows_witness :
  ∃ f out, gz_file (gzip_transform Sample2.zlib (Some Sample2.gz_smaller)
                      Sample.a_txt) = Some f
           ∧ contents f = CBuffer out
           ∧ (length out <= length Sample.hi)%nat.
Proof.
  destruct (gz_file (gzip_transform Sample2.zlib (Some Sample2.gz_smaller)
                       Sample.a_txt)) as [f|] eqn:E; [|discriminate E].
  destruct (X16_gzip_smaller_never_grows Sample2.zlib
              (Some Sample2.gz_smaller) Sample.a_txt f Sample.hi
              eq_refl eq_refl E) as (out & Hout & Hle & _).
  exists f, out. split; [reflexivity|]. split; [exact Hout | exact Hle].
Defined.

Lemma length_and_given_path (headers : JS.Obj) (buf : list byte) (i : S3Info) :
  s3_path (length_and_given headers buf i) = s3_path i.
Proof.
  unfold length_and_given.
  destruct (negb (JS.truthy (JS.get (s3_headers i) "Content-Length")));
    reflexivity.
Qed.

(** X17.  [gzip] then [publish]: for a file with a non-empty path and
    no [Content-Type], whose contents [gzip] replaced, the headers
    [publish] derives have the content type of the file as it was named
    before [gzip], [Content-Encoding: gzip] and the length of the
    compressed buffer, unless the headers given to [publish] name them
    (or a [Content-Length] was set upstream); [options.compress] plays no
    part, and the remote key carries the extension. *)
Theorem X17_gzip_then_publish (X : Externals) (zlib : Zlib)
    (gzoptions : option GzipOptions) (headers : JS.Obj) (options : Options)
    (file g f : File) (original buf : list byte) (i : S3Info) :
  contents file = CBuffer original →
  zlib original = inr buf →
  gzip_smaller gzoptions = false ∨ (length buf < length original)%nat →
  JS.truthy_str (path file) = true →
  JS.truthy (JS.get (s3_headers (s3_of file)) "Content-Type") = false →
  gz_file (gzip_transform zlib gzoptions file) = Some g →
  add_headers X headers options buf (g, s3_of g) = (f, i) →
  f = g
  ∧ s3_path i = key_of file +:+ gzip_ext gzoptions
  ∧ ("Content-Type" ∉ headers.*1 →
     JS.get (s3_headers i) "Content-Type"
     = Some (JS.VStr (getContentType X
                        (mkFile (path file) (relative file) None
                                (contents file) (s3 file)))))
  ∧ ("Content-Encoding" ∉ headers.*1 →
     JS.get (s3_headers i) "Content-Encoding" = Some (JS.VStr "gzip"))
  ∧ ("Content-Length" ∉ headers.*1 →
     JS.truthy (JS.get (s3_headers (s3_of file)) "Content-Length") = false →
     JS.get (s3_headers i) "Content-Length"
     = Some (JS.VNum (Z.of_nat (length buf)))).
Proof.
  intros Hc Hz Hrepl Hp Hct. unfold gzip_transform. rewrite Hc, Hz.
  assert (gzip_smaller gzoptions && (length original <=? length buf)%nat
          = false) as ->.
  { destruct Hrepl as [-> | Hlt]; [reflexivity|].
    apply andb_false_iff. right. apply Nat.leb_gt. exact Hlt. }
  simpl. intros [= <-]. rewrite add_headers_steps. intros [= <- <-].
  set (g := mkFile _ _ _ _ _).
  assert (Hstep : content_type_step X options (g, s3_of g)
                  = (g, set_headers (s3_of g)
                          (JS.set (s3_headers (s3_of g)) "Content-Type"
                             (JS.VStr (getContentType X g))))).
  { unfold content_type_step. cbn [snd].
    assert (JS.truthy (JS.get (s3_headers (s3_of g)) "Content-Type") = false)
      as -> by (subst g; simpl; rewrite get_set_ne by discriminate; exact Hct).
    cbn [negb].
    assert (match compress options with
            | Some c => fold_left compress_key c (g, s3_of g)
            | None => (g, s3_of g)
            end = (g, s3_of g)) as ->; [|reflexivity].
    destruct (compress options) as [c|]; [|reflexivity].
    apply compress_fold_noop. exact Hp. }
  rewrite Hstep. cbn [fst snd].
  split; [reflexivity|].
  split; [rewrite length_and_given_path; reflexivity|].
  split; [|split].
  - intros Hfree. rewrite (length_and_given_get _ _ _ _ Hfree). simpl.
    rewrite get_set_eq. unfold getContentType. simpl. rewrite Hp.
    reflexivity.
  - intros Hfree. rewrite (length_and_given_get _ _ _ _ Hfree). simpl.
    rewrite get_set_ne by discriminate. apply get_set_eq.
  - intros Hfree Hcl. rewrite (length_and_given_get _ _ _ _ Hfree). simpl.
    rewrite !get_set_ne by discriminate. rewrite Hcl. reflexivity.
Qed.

Lemma X17_gzip_then_publish_witness :
  ∃ f i, add_headers Sample.X Sample.acl Sample.defaults
           (x1f :: x8b :: Sample.hi) (Sample2.a_txt_gz, s3_of Sample2.a_txt_gz)
         = (f, i)
         ∧ s3_path i = "a.txt.gz"
         ∧ JS.get (s3_headers i) "Content-Type"
           = Some (JS.VStr "text/plain; charset=utf-8")
         ∧ JS.get (s3_headers i) "Content-Encoding" = Some (JS.VStr "gzip").
Proof.
  destruct (add_headers Sample.X Sample.acl Sample.defaults
              (x1f :: x8b :: Sample.hi)
              (Sample2.a_txt_gz, s3_of Sample2.a_txt_gz)) as [f i] eqn:E.
  exists f, i.
  destruct (X17_gzip_then_publish Sample.X Sample2.zlib (Some Sample2.gz)
              Sample.acl Sample.defaults Sample.a_txt Sample2.a_txt_gz f
              Sample.hi (x1f :: x8b :: Sample.hi) i)
    as (_ & Hk & Hct & Hce & _);
    [reflexivity | reflexivity | left; reflexivity | reflexivity
    | reflexivity | reflexivity | exact E |].
  assert (Hfree : ∀ k, k ≠ "x-amz-acl" → k ∉ Sample.acl.*1).
  { intros k Hk' Hin. apply list_elem_of_In in Hin. simpl in Hin.
    destruct Hin as [Hin|[]]. congruence. }
  split; [reflexivity|]. split; [rewrite Hk; reflexivity|].
  split; [rewrite Hct | rewrite Hce];
    first [reflexivity | apply Hfree; discriminate].
Defined.

(** ** The cache over a run *)

Section CacheRuns.

Context (X : Externals).

Lemma cache_transform_file_name (st : CacheState) (file : File) :
  _cacheFile (cs_pub (cache_transform X st file)) = _cacheFile (cs_pub st).
Proof.
  unfold cache_transform.
  destruct (s3 file) as [i|]; [|reflexivity].
  destruct (JS.truthy_str (s3_path i)); [|reflexivity].
  destruct (state_is i "cache"); [reflexivity|].
  set (st1 := if state_is i "delete" then _ else _).
  assert (_cacheFile (cs_pub st1) = _cacheFile (cs_pub st)) as <-.
  { subst st1. destruct (state_is i "delete"); [reflexivity|].
    destruct (s3_etag i) as [e|]; [|reflexivity].
    destruct (JS.truthy_str e); reflexivity. }
  destruct (negb _); reflexivity.
Qed.

Lemma cache_stream_file_name (st : CacheState) (files : list File) :
  _cacheFile (cs_pub (cache_stream X st files)) = _cacheFile (cs_pub st).
Proof.
  unfold cache_stream. revert st.
  induction files as [|file files IH]; intros st; simpl; [reflexivity|].
  rewrite IH. apply cache_transform_file_name.
Qed.

Lemma cache_transform_other (st : CacheState) (file : File) (k : string) :
  cache_key file ≠ Some k →
  _cache (cs_pub (cache_transform X st file)) !! k = _cache (cs_pub st) !! k.
Proof.
  unfold cache_key, cache_transform.
  destruct (s3 file) as [i|]; [|reflexivity].
  destruct (JS.truthy_str (s3_path i)); [|reflexivity].
  intros Hk. assert (s3_path i ≠ k) as Hne by congruence.
  destruct (state_is i "cache"); [reflexivity|].
  set (st1 := if state_is i "delete" then _ else _).
  assert (_cache (cs_pub st1) !! k = _cache (cs_pub st) !! k) as <-.
  { subst st1. destruct (state_is i "delete"); simpl.
    - apply lookup_delete_ne. exact Hne.
    - destruct (s3_etag i) as [e|]; [|reflexivity].
      destruct (JS.truthy_str e); [|reflexivity]. simpl.
      apply assign_other. exact Hne. }
  destruct (negb _); reflexivity.
Qed.

(** X18.  Over a whole run the cache stream changes no cache entry
    other than those of the keys of the files it sees, and never the
    name of the cache file. *)
Theorem X18_cache_run_other_keys (st : CacheState) (files : list File)
    (k : string) :
  Forall (λ f, cache_key f ≠ Some k) files →
  _cache (cs_pub (cache_run X st files)) !! k = _cache (cs_pub st) !! k
  ∧ getCacheFilename (cs_pub (cache_run X st files))
    = getCacheFilename (cs_pub st).
Proof.
  intros Hall. unfold cache_run, getCacheFilename. simpl.
  split; [|apply cache_stream_file_name].
  unfold cache_stream. revert st.
  induction Hall as [|file files Hfile _ IH]; intros st; simpl; [reflexivity|].
  rewrite IH. apply cache_transform_other, Hfile.
Qed.

(** X20.  A run in which no file counts (cache hits, files without a
    remote key) leaves the cache, the counter and the file system alone
    until [finish], which writes the cache file once with the cache as
    it was. *)
Theorem X20_cache_hits_write_once (st : CacheState) (files : list File) :
  Forall (λ f, counted f = false) files →
  cache_stream X st files = st
  ∧ cs_writes (cache_run X st files)
    = (cs_writes st
       ++ [(getCacheFilename (cs_pub st),
            JSON_stringify X (_cache (cs_pub st)))])%list.
Proof.
  intros Hall.
  assert (Hsame : cache_stream X st files = st).
  { unfold cache_stream.
    induction Hall as [|file files Hfile _ IH]; simpl; [reflexivity|].
    assert (cache_transform X st file = st) as ->; [|exact IH].
    unfold counted in Hfile. unfold cache_transform.
    destruct (s3 file) as [i|]; [|reflexivity].
    destruct (JS.truthy_str (s3_path i)); [|reflexivity].
    simpl in Hfile. apply negb_false_iff in Hfile. rewrite Hfile.
    reflexivity. }
  split; [exact Hsame|]. unfold cache_run. rewrite Hsame. reflexivity.
Qed.

Lemma fs_after_last (writes : list (string * string)) (name content : string)
    (fs : gmap string string) :
  fs_after (writes ++ [(name, content)]) fs !! name = Some content.
Proof.
  unfold fs_after. rewrite fold_left_app. simpl. apply lookup_insert_eq.
Qed.

(** X19.  The next run starts from the cache the last run ended with:
    when the JSON codec gives back the final cache of a run, a publisher
    constructed for the same bucket and cache file name on the file
    system the run leaves behind has that cache. *)
Theorem X19_cache_survives_runs (fs : gmap string string)
    (bucket cacheFileName : option string) (o : PublisherObject)
    (p : Publisher) (files : list File) (final : gmap string string) :
  newPublisher X fs bucket cacheFileName = Ret o →
  as_publisher o = Some p →
  final = _cache (cs_pub (cache_run X (cache_start p) files)) →
  JSON_parse X (JSON_stringify X final) = Some (JMapping final) →
  newPublisher X
    (fs_after (cs_writes (cache_run X (cache_start p) files)) fs)
    bucket cacheFileName
  = Ret (mkObject (getCacheFilename p) (JMapping final)).
Proof.
  unfold newPublisher.
  destruct (negb (JS.truthy_ostr bucket)); [discriminate|].
  intros Ho Hp -> Hcodec.
  assert (JS.or_else cacheFileName
            (".awspublish-" +:+ JS.or_else bucket EmptyString)
          = _cacheFile p) as ->.
  { injection Ho as <-. unfold as_publisher in Hp. simpl in Hp.
    destruct (loadCache _ _ _); try discriminate Hp.
    injection Hp as <-. reflexivity. }
  clear Ho Hp. f_equal. unfold getCacheFilename. f_equal.
  assert (Hwrites : cs_writes (cache_run X (cache_start p) files)
                    = (cs_writes (cache_stream X (cache_start p) files)
                       ++ [(_cacheFile p,
                            JSON_stringify X
                              (_cache (cs_pub (cache_run X (cache_start p)
                                                 files))))])%list).
  { unfold cache_run, saveCache, getCacheFilename. cbn [cs_writes cs_pub].
    rewrite cache_stream_file_name. reflexivity. }
  unfold loadCache. rewrite Hwrites, fs_after_last, Hcodec. reflexivity.
Qed.

Lemma deletions_leave_cache (keys : list string) (st : CacheState) (k : string) :
  (k ∈ keys → JS.truthy_str k = true →
   _cache (cs_pub (cache_stream X st (map deleteFile keys))) !! k = None)
  ∧ (k ∉ keys →
     _cache (cs_pub (cache_stream X st (map deleteFile keys))) !! k
     = _cache (cs_pub st) !! k).
Proof.
  unfold cache_stream. revert st.
  induction keys as [|key keys IH]; intros st; simpl.
  - split; [intros Hin; inversion Hin | reflexivity].
  - destruct (IH (cache_transform X st (deleteFile key))) as [IHin IHout].
    split.
    + intros Hin Ht. destruct (decide (k ∈ keys)) as [Hrest|Hrest];
        [apply IHin; assumption|].
      apply elem_of_cons in Hin as [->|Hin]; [|contradiction].
      rewrite (IHout Hrest).
      rewrite (cache_transform_delete X st (deleteFile key)
                 (mkS3 key [] (Some "delete") None None));
        [apply lookup_delete_eq | reflexivity | exact Ht | reflexivity].
    + intros Hout. apply not_elem_of_cons in Hout as [Hne Hout].
      rewrite (IHout Hout). apply cache_transform_other.
      unfold cache_key. simpl. destruct (JS.truthy_str key); congruence.
Qed.

(** X21.  [sync] then [cache]: once the cache stream has seen the
    deletion records [sync] pushes, no deleted key is left in the cache,
    and every other entry is as it was. *)
Theorem X21_deleted_keys_leave_cache (o : FlushOutcome) (st : CacheState)
    (k : string) :
  (k ∈ fl_toDelete o → JS.truthy_str k = true →
   _cache (cs_pub (cache_stream X st (fl_pushed o))) !! k = None)
  ∧ (k ∉ fl_toDelete o →
     _cache (cs_pub (cache_stream X st (fl_pushed o))) !! k
     = _cache (cs_pub st) !! k).
Proof. apply deletions_leave_cache. Qed.

End CacheRuns.

Lemma X18_cache_run_other_keys_witness :
  _cache (cs_pub (cache_run Sample.X
                    (cache_start (mkPublisher ".awspublish-bucket"
                                              Sample.cache_hi))
                    [Sample.created "b"; deleteFile "c"])) !! "a.txt"
  = Some Sample.etag_hi.
Proof.
  edestruct (X18_cache_run_other_keys Sample.X
               (cache_start (mkPublisher ".awspublish-bucket" Sample.cache_hi))
               [Sample.created "b"; deleteFile "c"] "a.txt") as [-> _].
  - repeat constructor; discriminate.
  - reflexivity.
Defined.

Lemma X20_cache_hits_write_once_witness :
  length (cs_writes (cache_run Sample.X (cache_start Sample.pub)
                       (Sample2.hit <$> Sample.many_keys 25)))
  = 1%nat.
Proof.
  destruct (X20_cache_hits_write_once Sample.X (cache_start Sample.pub)
              (Sample2.hit <$> Sample.many_keys 25)) as [_ ->].
  - apply Forall_fmap, Forall_fmap, Forall_forall. intros k _. reflexivity.
  - reflexivity.
Defined.

Lemma X19_cache_survives_runs_witness :
  newPublisher Sample.X
    (fs_after (cs_writes (cache_run Sample.X (cache_start Sample.pub)
                            [Sample.a_txt_created])) ∅)
    (Some "bucket") None
  = Ret (mkObject ".awspublish-bucket" (JMapping Sample.cache_hi)).
Proof.
  rewrite (X19_cache_survives_runs Sample.X ∅ (Some "bucket") None
             (mkObject ".awspublish-bucket" (JMapping ∅)) Sample.pub
             [Sample.a_txt_created] Sample.cache_hi); reflexivity.
Defined.

Lemma X21_deleted_keys_leave_cache_witness :
  ∃ o, sync_flush (Sample.listing ["a.txt"; "b"]) {[ "b" ]} None None = Ret o
       ∧ _cache (cs_pub (cache_stream Sample.X
                           (cache_start (mkPublisher ".awspublish-bucket"
                                                     Sample.cache_hi))
                           (fl_pushed o))) !! "a.txt"
         = None.
Proof.
  eexists. split; [vm_compute; reflexivity|].
  edestruct (X21_deleted_keys_leave_cache Sample.X) as [Hin _].
  apply Hin; [|reflexivity].
  apply list_elem_of_here.
Defined.

(** ** Whitelist errors and repeated reconciliation *)



Lemma lister_data_throws (newFiles : gset string)
    (whitelist : list WhitelistEntry) (keys toDelete : list string) :
  Forall unflagged whitelist →
  (∃ msg, lister_data newFiles whitelist keys toDelete = Throw msg)
  ↔ ∃ key, key ∈ keys ∧ (key ∉ newFiles) ∧ JS.inherited key = false
           ∧ ∃ msg, fileShouldBeDeleted key whitelist = Throw msg.
Proof.
  intros Hun.
  revert toDelete. induction keys as [|key keys IH]; intros toDelete; simpl.
  - split; [intros [msg Hm]; discriminate|].
    intros (k & Hin & _). inversion Hin.
  - destruct (bool_decide (key ∈ newFiles) || JS.inherited key) eqn:Hskip.
    + rewrite IH. split.
      * intros (k & Hin & Hrest). exists k. split; [now right | exact Hrest].
      * intros (k & Hin & Hnew & Hinh & Hthrow).
        apply elem_of_cons in Hin as [->|Hin]; [|eauto].
        apply orb_true_iff in Hskip as [Hp|Hp];
          [apply bool_decide_eq_true in Hp; contradiction | congruence].
    + apply orb_false_iff in Hskip as [Hpub Hinh].
      apply bool_decide_eq_false in Hpub.
      destruct (fileShouldBeDeleted key whitelist) as [[answer wl']|msg]
        eqn:Hw.
      * destruct (fileShouldBeDeleted_ret key whitelist answer wl' Hun Hw)
          as [_ ->].
        assert (Hnext : ∀ acc,
                  (∃ msg, lister_data newFiles whitelist keys acc = Throw msg)
                  ↔ ∃ k, k ∈ key :: keys ∧ (k ∉ newFiles)
                         ∧ JS.inherited k = false
                         ∧ ∃ msg, fileShouldBeDeleted k whitelist = Throw msg).
        { intros acc. rewrite IH. split.
          - intros (k & Hin & Hrest). exists k.
            split; [now right | exact Hrest].
          - intros (k & Hin & Hnew & Hi & [m Hthrow]).
            apply elem_of_cons in Hin as [->|Hin]; [congruence|]. eauto 6. }
        destruct answer; apply Hnext.
      * split; [|eauto]. intros _. exists key.
        split; [now left|]. split; [exact Hpub|]. split; [exact Hinh | eauto].
Qed.

(** X24.  With a whitelist none of whose patterns carries the [g] or the
    [y] flag, the flush of [sync] throws exactly when some listed key
    that was not published in the run, and is not the name of a property
    every object inherits, makes [fileShouldBeDeleted] throw; a malformed
    whitelist goes unnoticed as long as every such key is matched by an
    entry before the malformed one. *)
Theorem X24_flush_throws (client : S3Client) (newFiles : gset string)
    (prefix : option string) (whitelistedFiles : option (list WhitelistEntry)) :
  Forall unflagged (default [] whitelistedFiles) →
  (∃ msg, sync_flush client newFiles prefix whitelistedFiles = Throw msg)
  ↔ ∃ key, key ∈ listObjects client (JS.or_else prefix EmptyString)
           ∧ (key ∉ newFiles)
           ∧ JS.inherited key = false
           ∧ ∃ msg, fileShouldBeDeleted key (default [] whitelistedFiles)
                    = Throw msg.
Proof.
  intros Hun.
  rewrite <- (lister_data_throws newFiles (default [] whitelistedFiles) _ []
                Hun).
  unfold sync_flush.
  replace (match whitelistedFiles with Some w => w | None => [] end)
    with (default [] whitelistedFiles) by (destruct whitelistedFiles; done).
  destruct (lister_data _ _ _ _) as [toDelete|msg].
  - destruct (lister_end client toDelete).
    split; intros [m Hm]; discriminate.
  - split; intros _; eauto.
Qed.

Lemma X24_flush_throws_witness :
  (∃ msg, sync_flush (Sample.listing ["a"; "b"]) {[ "a" ]} None
                     (Some [WOther]) = Throw msg)
  ∧ sync_flush (Sample.listing ["a"; "b"]) {[ "a"; "b" ]} None (Some [WOther])
    = Ret (mkFlush [] [ListObjects EmptyString] None)
  ∧ sync_flush (Sample.listing ["constructor"]) ∅ None (Some [WOther])
    = Ret (mkFlush [] [ListObjects EmptyString] None).
Proof.
  split; [|split; vm_compute; reflexivity].
  apply (X24_flush_throws (Sample.listing ["a"; "b"]) {[ "a" ]} None
           (Some [WOther])).
  - repeat constructor.
  - exists "b". split; [apply list_elem_of_further, list_elem_of_here|].
    split; [|split; [reflexivity | eexists; reflexivity]].
    apply (bool_decide_unpack _). vm_compute. exact I.
Defined.

Lemma lister_data_grows (newFiles : gset string)
    (keys : list string) (whitelist : list WhitelistEntry)
    (toDelete result : list string) (key : string) :
  lister_data newFiles whitelist keys toDelete = Ret result →
  key ∈ toDelete → key ∈ result.
Proof.
  revert whitelist toDelete.
  induction keys as [|k keys IH]; intros whitelist toDelete; simpl.
  - intros [= <-] Hin. exact Hin.
  - destruct (bool_decide (k ∈ newFiles) || JS.inherited k); [apply IH|].
    destruct (fileShouldBeDeleted k whitelist) as [[[|] wl']|msg];
      [| |discriminate].
    + intros Hr Hin. apply (IH _ _ Hr). apply elem_of_app. now left.
    + apply IH.
Qed.

Lemma lister_data_kept (newFiles : gset string)
    (whitelist : list WhitelistEntry) (keys toDelete result : list string)
    (key : string) :
  Forall unflagged whitelist →
  lister_data newFiles whitelist keys toDelete = Ret result →
  key ∈ keys → key ∉ result →
  bool_decide (key ∈ newFiles) || JS.inherited key = true
  ∨ fileShouldBeDeleted key whitelist = Ret (false, whitelist).
Proof.
  intros Hun.
  revert toDelete. induction keys as [|k keys IH]; intros toDelete; simpl.
  - intros _ Hin. inversion Hin.
  - intros Hret Hin Hout.
    destruct (bool_decide (k ∈ newFiles) || JS.inherited k) eqn:Hskip.
    + apply elem_of_cons in Hin as [->|Hin]; [now left | eauto].
    + destruct (fileShouldBeDeleted k whitelist) as [[answer wl']|msg] eqn:Hw;
        [|discriminate].
      destruct (fileShouldBeDeleted_ret k whitelist answer wl' Hun Hw)
        as [_ ->].
      destruct answer.
      * apply elem_of_cons in Hin as [->|Hin]; [|eauto].
        exfalso. apply Hout. apply (lister_data_grows _ _ _ _ _ _ Hret).
        apply elem_of_app. right. apply list_elem_of_here.
      * apply elem_of_cons in Hin as [->|Hin]; [now right | eauto].
Qed.

Lemma lister_data_nothing (newFiles : gset string)
    (whitelist : list WhitelistEntry) (keys toDelete : list string) :
  (∀ key, key ∈ keys →
          bool_decide (key ∈ newFiles) || JS.inherited key = true
          ∨ fileShouldBeDeleted key whitelist = Ret (false, whitelist)) →
  lister_data newFiles whitelist keys toDelete = Ret toDelete.
Proof.
  induction keys as [|k keys IH]; intros Hall; simpl; [reflexivity|].
  assert (Hrest : ∀ key, key ∈ keys →
            bool_decide (key ∈ newFiles) || JS.inherited key = true
            ∨ fileShouldBeDeleted key whitelist = Ret (false, whitelist))
    by (intros key Hin; apply Hall; now right).
  destruct (bool_decide (k ∈ newFiles) || JS.inherited k) eqn:Hskip;
    [apply IH, Hrest|].
  destruct (Hall k (list_elem_of_here _ _)) as [Hin | ->]; [congruence|].
  apply IH, Hrest.
Qed.

(** X22.  When every listed key was published in the run, the flush
    deletes nothing and calls the store for the listing only, whatever
    the whitelist holds. *)
Theorem X22_nothing_to_reconcile (client : S3Client) (newFiles : gset string)
    (prefix : option string) (whitelistedFiles : option (list WhitelistEntry)) :
  (∀ key, key ∈ listObjects client (JS.or_else prefix EmptyString) →
          key ∈ newFiles) →
  sync_flush client newFiles prefix whitelistedFiles
  = Ret (mkFlush [] [ListObjects (JS.or_else prefix EmptyString)] None).
Proof.
  intros Hall. unfold sync_flush.
  rewrite lister_data_nothing; [reflexivity|].
  intros key Hin. left. apply orb_true_iff. left.
  apply bool_decide_eq_true. apply Hall, Hin.
Qed.

Lemma X22_nothing_to_reconcile_witness :
  sync_flush (Sample.listing ["a"; "b"]) {[ "a"; "b"; "c" ]} (Some "css/")
             (Some [WOther])
  = Ret (mkFlush [] [ListObjects "css/"] None).
Proof.
  apply (X22_nothing_to_reconcile (Sample.listing ["a"; "b"])).
  intros key Hin. apply list_elem_of_In in Hin. simpl in Hin.
  destruct Hin as [<- | [<- | []]]; apply (bool_decide_unpack _);
    vm_compute; exact I.
Defined.

(** X25.  Reconciling twice, with a whitelist none of whose patterns
    carries the [g] or the [y] flag (so that the patterns are after a
    flush as they were before it): when a flush has computed its delete
    set and the store then lists only keys it listed before, none of
    them one of the deleted, a second flush for the same published keys
    and whitelist deletes nothing and makes no delete call. *)
Theorem X25_second_flush_deletes_nothing (client client2 : S3Client)
    (newFiles : gset string) (prefix : option string)
    (whitelistedFiles : option (list WhitelistEntry)) (o : FlushOutcome) :
  Forall unflagged (default [] whitelistedFiles) →
  sync_flush client newFiles prefix whitelistedFiles = Ret o →
  (∀ key, key ∈ listObjects client2 (JS.or_else prefix EmptyString) →
          key ∈ listObjects client (JS.or_else prefix EmptyString)
          ∧ key ∉ fl_toDelete o) →
  sync_flush client2 newFiles prefix whitelistedFiles
  = Ret (mkFlush [] [ListObjects (JS.or_else prefix EmptyString)] None).
Proof.
  intros Hun. unfold sync_flush.
  replace (match whitelistedFiles with Some w => w | None => [] end)
    with (default [] whitelistedFiles) by (destruct whitelistedFiles; done).
  destruct (lister_data newFiles _ (listObjects client _) [])
    as [toDelete|msg] eqn:Hfirst; [|discriminate].
  destruct (lister_end client toDelete). intros [= <-] Hleft. simpl in Hleft.
  rewrite lister_data_nothing; [reflexivity|].
  intros key Hin. destruct (Hleft key Hin) as [Hold Hkept].
  apply (lister_data_kept _ _ _ _ _ key Hun Hfirst Hold Hkept).
Qed.

Lemma X25_second_flush_deletes_nothing_witness :
  sync_flush (Sample.listing ["a"; "b"; "c"]) {[ "a"; "b" ]} None
             (Some [WString "c"; WRegExp Sample2.a_plain])
  = Ret (mkFlush [] [ListObjects EmptyString] None).
Proof.
  apply (X25_second_flush_deletes_nothing
           (Sample.listing ["a"; "b"; "c"; "d"])
           (Sample.listing ["a"; "b"; "c"]) {[ "a"; "b" ]} None
           (Some [WString "c"; WRegExp Sample2.a_plain])
           (mkFlush ["d"]
              [ListObjects EmptyString;
               DeleteObjects
                 (Some (mkDeleteRequest (mkDeleteSpec [mkKey "d"])))]
              None)).
  - repeat constructor.
  - vm_compute. reflexivity.
  - intros key Hin. apply list_elem_of_In in Hin. simpl in Hin.
    split.
    + apply list_elem_of_In. simpl. tauto.
    + intros Hd. apply list_elem_of_In in Hd. simpl in Hd.
      destruct Hd as [<- | []].
      destruct Hin as [H | [H | [H | []]]]; discriminate H.
Defined.

(** ** Publishers and files without a key *)

Lemma append_inj (p a b : string) : p +:+ a = p +:+ b → a = b.
Proof.
  induction p as [|c r IH]; [exact (fun H => H)|].
  change (String c (r +:+ a) = String c (r +:+ b) → a = b).
  intros [= H]. apply IH, H.
Qed.

(** X26.  A publisher cannot be constructed without a (non-empty)
    bucket name.  With one, its cache file is the name given in the cache
    options when there is one, else [.awspublish-] followed by the bucket
    name, so that publishers for different buckets keep different cache
    files.  It is the name [getCacheFilename] gives. *)
Theorem X26_publisher_cache_file (X : Externals) (fs fs' : gmap string string)
    (bucket cacheFileName : option string) :
  (JS.truthy_ostr bucket = false →
   newPublisher X fs bucket cacheFileName
   = Throw "Missing `params.Bucket` config value.")
  ∧ (∀ b p, bucket = Some b → JS.truthy_str b = true →
            newPublisher X fs bucket cacheFileName = Ret p →
            cacheFile_of p
            = JS.or_else cacheFileName (".awspublish-" +:+ b)
            ∧ ∀ b' p', JS.truthy_str b' = true →
                       newPublisher X fs' (Some b') None = Ret p' →
                       cacheFileName = None →
                       cacheFile_of p' = cacheFile_of p → b' = b)
  ∧ (∀ p q, newPublisher X fs bucket cacheFileName = Ret p →
            as_publisher p = Some q →
            getCacheFilename q = cacheFile_of p).
Proof.
  unfold newPublisher. split; [|split].
  - intros ->. reflexivity.
  - intros b p -> Hb. simpl. rewrite Hb. simpl. intros [= <-].
    simpl. split; [reflexivity|].
    intros b' p' Hb'. rewrite Hb'. simpl. intros [= <-] ->. simpl.
    apply append_inj.
  - intros p q _. unfold as_publisher.
    destruct (cache_of p); try discriminate. intros [= <-]. reflexivity.
Qed.

Lemma X26_publisher_cache_file_witness :
  newPublisher Sample.X ∅ None None
  = Throw "Missing `params.Bucket` config value."
  ∧ ∃ p, newPublisher Sample.X ∅ (Some "bucket") (Some "cache.json") = Ret p
         ∧ cacheFile_of p = "cache.json".
Proof.
  destruct (X26_publisher_cache_file Sample.X ∅ ∅ None None) as [Hthrow _].
  destruct (X26_publisher_cache_file Sample.X ∅ ∅ (Some "bucket")
              (Some "cache.json")) as (_ & Hname & _).
  split; [apply Hthrow; reflexivity|].
  eexists. split; [reflexivity|].
  destruct (Hname "bucket" _ eq_refl eq_refl eq_refl) as [-> _]. reflexivity.
Defined.

(** X7.  [sync] needs files that went through [publish]: its transform
    throws exactly when some file of the run has no [s3] record, and then
    [sync] as a whole throws: no listing and no deletion takes place. *)
Theorem X7_sync_needs_keys (client : S3Client) (prefix : option string)
    (whitelistedFiles : option (list WhitelistEntry)) (files : list File) :
  ((∃ msg, sync_files ∅ files = Throw msg)
   ↔ Exists (λ f, s3 f = None) files)
  ∧ (Exists (λ f, s3 f = None) files →
     ∃ msg, sync client prefix whitelistedFiles files = Throw msg).
Proof.
  assert (Hiff : ∀ newFiles : gset string,
            (∃ msg, sync_files newFiles files = Throw msg)
            ↔ Exists (λ f, s3 f = None) files).
  { induction files as [|file files IH]; intros newFiles; simpl.
    - split; [intros [m Hm]; discriminate | intros H; inversion H].
    - unfold sync_transform. destruct (s3 file) as [i|] eqn:Hs.
      + rewrite IH. split; [intros H; now right|].
        intros H. apply Exists_cons in H as [H|H]; [congruence | exact H].
      + split; [intros _; left; exact Hs | eauto]. }
  split; [apply Hiff|].
  intros Hex. apply (Hiff ∅) in Hex as [msg Hm].
  exists msg. unfold sync. rewrite Hm. reflexivity.
Qed.

Lemma X7_sync_needs_keys_witness :
  ∃ msg, sync (Sample.listing ["a"]) None None
              [Sample.created "a"; Sample.a_txt] = Throw msg.
Proof.
  destruct (X7_sync_needs_keys (Sample.listing ["a"]) None None
              [Sample.created "a"; Sample.a_txt]) as [_ Hthrow].
  apply Hthrow. right. left. reflexivity.
Defined.
